(** * DoxHub: [doxhub/utils/version.py]

    A shallow embedding of the version utilities of DoxHub and the
    properties its specification states about them.

    The module has four functions.  [get_complete_version] and
    [get_main_version] are fallible but touch no state; [get_git_changeset]
    runs a subprocess and is wrapped by [functools.lru_cache];
    [get_version] calls all three.  Python exceptions are an explicit
    [result]; the memo table and the log of spawned commands are an
    explicit [world] threaded through a state-and-exception monad in which,
    as in Python, what happened before an exception stays done. *)

From Stdlib Require Import ZArith String Ascii List Bool Lia DecimalString.
From Stdlib Require DecimalPos DecimalZ.
From stdpp Require Import base option list gmap strings.

Local Open Scope string_scope.

(** ** Python values and exceptions *)

(** The exception classes that the module, or the library calls it makes,
    can raise. *)
Inductive exn : Type :=
  | AssertionError
  | IndexError
  | KeyError
  | ValueError
  | OverflowError
  | OSError
  | UnicodeDecodeError.

Inductive result (A : Type) : Type :=
  | Ok (a : A)
  | Raise (e : exn).
Arguments Ok {A} a.
Arguments Raise {A} e.

#[global] Instance result_ret : MRet result := fun A a => Ok a.

#[global] Instance result_bind : MBind result := fun A B k r =>
  match r with
  | Ok a => k a
  | Raise e => Raise e
  end.

(** The objects a version tuple can hold. *)
Inductive pyval : Type :=
  | PNone
  | PBool (b : bool)
  | PInt (z : Z)
  | PStr (s : string).

(** [a == b].  [bool] is a subclass of [int]; strings and [None] equal only
    their own kind. *)
Definition py_eq (a b : pyval) : bool :=
  match a, b with
  | PNone, PNone => true
  | PBool x, PBool y => Bool.eqb x y
  | PBool x, PInt y => Z.eqb (Z.b2z x) y
  | PInt x, PBool y => Z.eqb x (Z.b2z y)
  | PInt x, PInt y => Z.eqb x y
  | PStr x, PStr y => String.eqb x y
  | _, _ => false
  end.

(** [x in t] for a tuple [t]. *)
Definition py_in (x : pyval) (t : list pyval) : bool :=
  existsb (py_eq x) t.

(** An integer in decimal: its digits, after a minus sign when it is
    negative. *)
Definition decimal (z : Z) : string :=
  NilZero.string_of_int (Z.to_int z).

(** The length above which the interpreter looks at its limit on the
    conversion between integers and strings at all
    ([_PY_LONG_MAX_STR_DIGITS_THRESHOLD]). *)
Definition MAX_STR_DIGITS_THRESHOLD : nat := 640.

(** The guard of [int] and [str] on a number of [digits] digits, where
    [limit] is [sys.get_int_max_str_digits()]: 4300 unless it is set, 0 for
    no limit. *)
Definition over_limit (limit digits : nat) : bool :=
  (MAX_STR_DIGITS_THRESHOLD <? digits)%nat && (0 <? limit)%nat
  && (limit <? digits)%nat.

(** [str(n)] for an integer: [ValueError] when it has more digits than the
    limit allows, its decimal otherwise. *)
Definition str_int (limit : nat) (z : Z) : result string :=
  if over_limit limit (String.length (decimal (Z.abs z)))
  then Raise ValueError
  else Ok (decimal z).

(** [str(x)]. *)
Definition py_str (limit : nat) (v : pyval) : result string :=
  match v with
  | PNone => Ok "None"
  | PBool true => Ok "True"
  | PBool false => Ok "False"
  | PInt z => str_int limit z
  | PStr s => Ok s
  end.

(** [t[i]] for a tuple and a non-negative index. *)
Definition py_index (t : list pyval) (i : nat) : result pyval :=
  match t !! i with
  | Some x => Ok x
  | None => Raise IndexError
  end.

(** [assert c], with assertions switched on as they are unless the
    interpreter is told to optimise. *)
Definition py_assert (c : bool) : result unit :=
  if c then Ok tt else Raise AssertionError.

(** ** The host: everything the module reads from outside itself *)

(** What [subprocess.run] comes back with: the captured standard output, or
    an exception of the invocation mechanism itself. *)
Inductive completed : Type :=
  | Completed (stdout : string)
  | SpawnFailed (e : exn).

Record host : Type := Host {
  (** [doxhub.VERSION], imported when no tuple is passed. *)
  VERSION : list pyval;
  (** The module global [__file__], when there is one. *)
  module_file : option string;
  (** [os.path.abspath], which depends on the working directory. *)
  abspath : string -> string;
  (** The outcome of the [n]-th [subprocess.run] of the process, for the
      command line and the working directory it is given. *)
  shell : nat -> string -> string -> completed;
  (** [sys.get_int_max_str_digits()]: 4300 by default, 0 for no limit. *)
  int_max_str_digits : nat;
  (** Whether the platform's [strftime] pads [%Y] to four digits.  CPython
      hands the format to the C library: glibc prints a year below 1000
      without padding, the libraries of macOS and Windows pad it, and so
      do the versions of CPython that format the year themselves. *)
  strftime_pads_year : bool
}.

(** ** Version Formatter *)

Definition RELEASE_KINDS : list pyval :=
  [PStr "alpha"; PStr "beta"; PStr "rc"; PStr "release"].

(** [get_complete_version(version=None)].  The argument is [None] or a
    tuple; [doxhub.VERSION] is returned as it is, a tuple that is passed is
    checked by the two assertions. *)
Definition get_complete_version (h : host) (version : option (list pyval))
  : result (list pyval) :=
  match version with
  | None => Ok (VERSION h)
  | Some v =>
      py_assert (Nat.eqb (length v) 5) ;;
      kind ← py_index v 3 ;
      py_assert (py_in kind RELEASE_KINDS) ;;
      Ok v
  end.

(** [get_main_version(version=None)]: [str] of the first two elements, or
    of the first three when element 2 is not equal to 0, joined by dots.
    The elements are converted one after the other, and the first that
    [str] refuses ends the call. *)
Definition get_main_version (h : host) (version : option (list pyval))
  : result string :=
  version ← get_complete_version h version ;
  micro ← py_index version 2 ;
  let parts := if py_eq micro (PInt 0) then 2%nat else 3%nat in
  strs ← mapM (py_str (int_max_str_digits h)) (take parts version) ;
  Ok (String.concat "." strs).

(** ** Library calls of the Changeset Resolver *)

(** Text is a string of characters below U+0100: a character stands for the
    Unicode code point of its number. *)

Fixpoint drop_while (p : ascii -> bool) (l : list ascii) : list ascii :=
  match l with
  | [] => []
  | c :: l' => if p c then drop_while p l' else l
  end.

Definition is_sep (c : ascii) : bool := Ascii.eqb c "/".

(** [posixpath.dirname]: everything up to the last separator, with the
    separators that end it stripped unless it consists of nothing else. *)
Definition dirname (p : string) : string :=
  let head := rev (drop_while (fun c => negb (is_sep c))
                     (rev (list_ascii_of_string p))) in
  string_of_list_ascii
    (if forallb is_sep head then head
     else rev (drop_while is_sep (rev head))).

(** The characters [int] strips from both ends: the six ASCII blanks, and
    NEL and the no-break space, the only other blanks below U+0100. *)
Definition is_space (c : ascii) : bool :=
  let n := nat_of_ascii c in
  ((9 <=? n) && (n <=? 13) || (n =? 32) || (n =? 133) || (n =? 160))%nat.

Definition is_digit (c : ascii) : bool :=
  let n := nat_of_ascii c in ((48 <=? n) && (n <=? 57))%nat.

Definition digit_value (c : ascii) : Z := Z.of_nat (nat_of_ascii c) - 48.

(** The digits of a base-10 literal after its sign: a digit first, then
    digits, each optionally preceded by one underscore.  [acc] is the value
    read so far, [seen] the number of digits read so far; the result is the
    value and the number of digits. *)
Fixpoint scan_digits (acc : Z) (seen : nat) (l : list ascii)
  : option (Z * nat) :=
  match l with
  | [] => Some (acc, seen)
  | c :: l' =>
      if is_digit c then scan_digits (10 * acc + digit_value c) (S seen) l'
      else if Ascii.eqb c "_" then
        match l' with
        | d :: l'' =>
            if is_digit d
            then scan_digits (10 * acc + digit_value d) (S seen) l''
            else None
        | [] => None
        end
      else None
  end.

Definition scan_literal (l : list ascii) : option (Z * nat) :=
  match l with
  | c :: l' =>
      if is_digit c then scan_digits (digit_value c) 1 l' else None
  | [] => None
  end.

(** [int(s)] for a string [s]; [limit] is [sys.get_int_max_str_digits()].
    A string that is no literal, and a literal of more digits than the
    limit allows, leading zeros counted, raise [ValueError]; nothing else
    is raised. *)
Definition py_int (limit : nat) (s : string) : result Z :=
  let body := rev (drop_while is_space
                (rev (drop_while is_space (list_ascii_of_string s)))) in
  let '(negative, digits) :=
    match body with
    | c :: l' =>
        if Ascii.eqb c "-" then (true, l')
        else if Ascii.eqb c "+" then (false, l')
        else (false, body)
    | [] => (false, body)
    end in
  match scan_literal digits with
  | Some (z, n) =>
      if over_limit limit n then Raise ValueError
      else Ok (if negative then (- z)%Z else z)
  | None => Raise ValueError
  end.

(** The broken-down time of [gmtime], with the year and the month as the
    calendar writes them. *)
Record tm : Type := Tm {
  tm_year : Z; tm_mon : Z; tm_mday : Z;
  tm_hour : Z; tm_min : Z; tm_sec : Z
}.

(** The date of the proleptic Gregorian calendar that lies [days] days
    after 1970-01-01, counted in eras of 400 years that start on 1 March. *)
Definition civil_from_days (days : Z) : Z * Z * Z :=
  let z := (days + 719468)%Z in
  let era := (z / 146097)%Z in
  let doe := (z - era * 146097)%Z in
  let yoe := ((doe - doe / 1460 + doe / 36524 - doe / 146096) / 365)%Z in
  let doy := (doe - (365 * yoe + yoe / 4 - yoe / 100))%Z in
  let mp := ((5 * doy + 2) / 153)%Z in
  let d := (doy - (153 * mp + 2) / 5 + 1)%Z in
  let m := (if mp <? 10 then mp + 3 else mp - 9)%Z in
  let y := (yoe + era * 400 + (if m <=? 2 then 1 else 0))%Z in
  (y, m, d).

(** C's [gmtime_r] behind [_PyTime_gmtime]: it fails with [EOVERFLOW],
    which CPython raises as [OSError], when the year less 1900 does not fit
    a C [int]. *)
Definition gmtime (t : Z) : result tm :=
  let '(y, m, d) := civil_from_days (t / 86400) in
  let s := (t mod 86400)%Z in
  if ((- 2 ^ 31 <=? y - 1900) && (y - 1900 <? 2 ^ 31))%Z
  then Ok (Tm y m d (s / 3600) (s mod 3600 / 60) (s mod 60))
  else Raise OSError.

Record datetime : Type := Datetime {
  year : Z; month : Z; day : Z;
  hour : Z; minute : Z; second : Z
}.

Definition is_leap (y : Z) : bool :=
  ((y mod 4 =? 0) && (negb (y mod 100 =? 0) || (y mod 400 =? 0)))%Z.

Definition days_in_month (y m : Z) : Z :=
  if (m =? 2)%Z then (if is_leap y then 29 else 28)%Z
  else if ((m =? 4) || (m =? 6) || (m =? 9) || (m =? 11))%Z then 30%Z
  else 31%Z.

Definition MINYEAR : Z := 1.
Definition MAXYEAR : Z := 9999.

(** The [datetime] constructor: every field is checked against its range
    and [ValueError] raised for one outside it. *)
Definition new_datetime (y m d hh mm ss : Z) : result datetime :=
  if ((MINYEAR <=? y) && (y <=? MAXYEAR)
      && (1 <=? m) && (m <=? 12)
      && (1 <=? d) && (d <=? days_in_month y m)
      && (0 <=? hh) && (hh <=? 23)
      && (0 <=? mm) && (mm <=? 59)
      && (0 <=? ss) && (ss <=? 59))%Z
  then Ok (Datetime y m d hh mm ss)
  else Raise ValueError.

(** [datetime.datetime.fromtimestamp(t, tz=datetime.timezone.utc)] for an
    integer [t]: [OverflowError] when [t] does not fit the platform's
    64-bit [time_t], then [gmtime], then the constructor.  The offset of
    UTC is zero, so the zone's [fromutc] changes nothing. *)
Definition fromtimestamp (t : Z) : result datetime :=
  if ((- 2 ^ 63 <=? t) && (t <? 2 ^ 63))%Z then
    g ← gmtime t ;
    new_datetime (tm_year g) (tm_mon g) (tm_mday g)
                 (tm_hour g) (tm_min g) (tm_sec g)
  else Raise OverflowError.

(** The digits [s] with zeros put before them up to the width [w], as
    [s.zfill(w)] and C's [%0wd] write a number that is not negative. *)
Definition zfill (w : nat) (s : string) : string :=
  string_of_list_ascii (repeat "0"%char (w - String.length s)%nat) ++ s.

(** [dt.strftime("%Y%m%d%H%M%S")]. *)
Definition strftime (h : host) (dt : datetime) : string :=
  (if strftime_pads_year h then zfill 4 (decimal (year dt))
   else decimal (year dt))
  ++ zfill 2 (decimal (month dt)) ++ zfill 2 (decimal (day dt))
  ++ zfill 2 (decimal (hour dt)) ++ zfill 2 (decimal (minute dt))
  ++ zfill 2 (decimal (second dt)).

(** ** The process: memo table and spawned commands *)

Record world : Type := World {
  (** The table of [functools.lru_cache]; the function takes no argument,
      so the table has at most the one entry of the empty call. *)
  cache : option (option string);
  (** The two counters of the cache, as [cache_info()] reports them. *)
  hits : nat;
  misses : nat;
  (** Every [subprocess.run] so far: command line and working directory. *)
  spawned : list (string * string)
}.

Definition fresh : world := World None 0 0 [].

(** A computation that reads and writes the process and may raise; the
    process it leaves is the one at the return or at the raise. *)
Definition M (A : Type) : Type := world -> result A * world.

#[global] Instance M_ret : MRet M := fun A a w => (Ok a, w).

#[global] Instance M_bind : MBind M := fun A B k c w =>
  match c w with
  | (Ok a, w') => k a w'
  | (Raise e, w') => (Raise e, w')
  end.

Definition lift {A : Type} (r : result A) : M A := fun w => (r, w).

(** [subprocess.run(cmd, capture_output=True, shell=True, cwd=cwd,
    text=True).stdout]. *)
Definition subprocess_run (h : host) (cmd cwd : string) : M string :=
  fun w =>
    let w' := World (cache w) (hits w) (misses w)
                    (spawned w ++ [(cmd, cwd)]) in
    match shell h (length (spawned w)) cmd cwd with
    | Completed out => (Ok out, w')
    | SpawnFailed e => (Raise e, w')
    end.

(** ** Changeset Resolver *)

Definition GIT_LOG : string := "git log --pretty=format:%ct --quiet -1 HEAD".

(** The function as written, before the decorator wraps it. *)
Definition get_git_changeset_body (h : host) : M (option string) :=
  match module_file h with
  | None => mret None
  | Some file =>
      let repo_dir := dirname (dirname (abspath h file)) in
      timestamp ← subprocess_run h GIT_LOG repo_dir ;
      match z ← py_int (int_max_str_digits h) timestamp ;
            fromtimestamp z with
      | Ok dt => mret (Some (strftime h dt))
      | Raise ValueError => mret None
      | Raise e => lift (Raise e)
      end
  end.

(** [@functools.lru_cache]: a hit returns the stored result; a miss is
    counted, then the function runs, and its result is stored when it
    returns one.  A call that raises stores nothing. *)
Definition get_git_changeset (h : host) : M (option string) := fun w =>
  match cache w with
  | Some r => (Ok r, World (cache w) (S (hits w)) (misses w) (spawned w))
  | None =>
      match get_git_changeset_body h
              (World (cache w) (hits w) (S (misses w)) (spawned w)) with
      | (Ok r, w') =>
          (Ok r, World (Some r) (hits w') (misses w') (spawned w'))
      | (Raise e, w') => (Raise e, w')
      end
  end.

(** ** get_version *)

(** [{'alpha': 'a', 'beta': 'b', 'rc': 'rc'}]. *)
Definition mapping : gmap string string :=
  <["alpha" := "a"]> (<["beta" := "b"]> (<["rc" := "rc"]> ∅)).

(** [mapping[k]]: only a string can equal a key. *)
Definition mapping_getitem (k : pyval) : result string :=
  match k with
  | PStr s =>
      match mapping !! s with
      | Some code => Ok code
      | None => Raise KeyError
      end
  | _ => Raise KeyError
  end.

(** Truth value of what the resolver returned. *)
Definition truthy (r : option string) : bool :=
  match r with
  | Some s => negb (String.eqb s "")
  | None => false
  end.

(** [get_version(version=None)].  The tuple is completed, and completed
    once more inside [get_main_version], which is where [doxhub.VERSION]
    meets the assertions.  [dev] is the condition of the [if]: [and] looks
    at element 4 only when element 3 equals ['alpha']. *)
Definition get_version (h : host) (version : option (list pyval))
  : M string :=
  version ← lift (get_complete_version h version) ;
  main ← lift (get_main_version h (Some version)) ;
  kind ← lift (py_index version 3) ;
  dev ← (if py_eq kind (PStr "alpha")
         then serial ← lift (py_index version 4) ;
              mret (py_eq serial (PInt 0))
         else mret false) ;
  sub ← (if dev : bool then
           git_changeset ← get_git_changeset h ;
           mret (if truthy git_changeset
                 then ".dev" ++ default "" git_changeset
                 else "")
         else
           kind ← lift (py_index version 3) ;
           if negb (py_eq kind (PStr "release")) then
             kind ← lift (py_index version 3) ;
             code ← lift (mapping_getitem kind) ;
             serial ← lift (py_index version 4) ;
             digits ← lift (py_str (int_max_str_digits h) serial) ;
             mret (code ++ digits)
           else mret "") ;
  mret (main ++ sub).

(** ** The specification's data model *)

(** The four release kinds of the specification. *)
Inductive release_kind : Type := Alpha | Beta | Rc | Release.

Definition kind_name (k : release_kind) : string :=
  match k with
  | Alpha => "alpha"
  | Beta => "beta"
  | Rc => "rc"
  | Release => "release"
  end.

(** The short code the specification gives each pre-release kind. *)
Definition short_code (k : release_kind) : string :=
  match k with
  | Alpha => "a"
  | Beta => "b"
  | Rc => "rc"
  | Release => ""
  end.

(** A valid VersionDescriptor: three non-negative integers, a release
    kind, a non-negative serial. *)
Record VersionDescriptor : Type := Descriptor {
  major : N;
  minor : N;
  micro : N;
  kind : release_kind;
  serial : N
}.

(** The Python tuple that writes a descriptor down. *)
Definition to_tuple (d : VersionDescriptor) : list pyval :=
  [PInt (Z.of_N (major d)); PInt (Z.of_N (minor d)); PInt (Z.of_N (micro d));
   PStr (kind_name (kind d)); PInt (Z.of_N (serial d))].

(** The string is one of the four literals a release kind may be. *)
Definition kind_literal (s : string) : Prop :=
  s = "alpha" \/ s = "beta" \/ s = "rc" \/ s = "release".

(** Element 4 of the tuple, at index 3, is a valid release kind. *)
Definition release_kind_ok (v : list pyval) : Prop :=
  exists s, v !! 3%nat = Some (PStr s) /\ kind_literal s.

(** A pre-alpha build: kind alpha with serial 0. *)
Definition is_dev (d : VersionDescriptor) : bool :=
  match kind d with
  | Alpha => N.eqb (serial d) 0
  | _ => false
  end.

(** The suffix the specification gives a build that is not a pre-alpha
    one: the short code of its kind and its serial, and nothing for a
    final release. *)
Definition release_suffix (d : VersionDescriptor) : string :=
  match kind d with
  | Release => ""
  | k => short_code k ++ decimal (Z.of_N (serial d))
  end.

(** The suffix of a pre-alpha build: the timestamp behind [.dev] when the
    resolver returned one, nothing when it did not. *)
Definition dev_suffix (r : option string) : string :=
  match r with
  | Some ts => ".dev" ++ ts
  | None => ""
  end.

(** [str] prints the number: it has no more digits than the limit of the
    host allows. *)
Definition fits (h : host) (n : N) : bool :=
  negb (over_limit (int_max_str_digits h)
          (String.length (decimal (Z.of_N n)))).

(** [str] prints every number of the main version: major, minor, and
    micro when it is not 0. *)
Definition main_fits (h : host) (d : VersionDescriptor) : bool :=
  fits h (major d) && fits h (minor d)
  && (N.eqb (micro d) 0 || fits h (micro d)).

(** ** Decimal digits *)

Fixpoint all_digits (s : string) : bool :=
  match s with
  | EmptyString => true
  | String c s' => is_digit c && all_digits s'
  end.

(** A non-empty string of decimal digits. *)
Definition is_number (s : string) : bool :=
  negb (String.eqb s "") && all_digits s.

(** Exactly [w] decimal digits. *)
Definition fixed_width (w : nat) (s : string) : bool :=
  Nat.eqb (String.length s) w && all_digits s.

(** Exactly fourteen decimal digits. *)
Definition is_timestamp (s : string) : bool := fixed_width 14 s.

(** No character of the string is a decimal digit. *)
Definition no_digit (s : string) : bool :=
  forallb (fun c => negb (is_digit c)) (list_ascii_of_string s).

(** ** Regular expressions

    The specification states the shape of the main version as a regular
    expression.  A string is matched whole, by taking the derivative of the
    expression at each of its characters in turn. *)
Inductive regex : Type :=
  | Void
  | Eps
  | Class (p : ascii -> bool)
  | Cat (r1 r2 : regex)
  | Alt (r1 r2 : regex)
  | Star (r : regex).

Fixpoint nullable (r : regex) : bool :=
  match r with
  | Void => false
  | Eps => true
  | Class _ => false
  | Cat r1 r2 => nullable r1 && nullable r2
  | Alt r1 r2 => nullable r1 || nullable r2
  | Star _ => true
  end.

Fixpoint deriv (c : ascii) (r : regex) : regex :=
  match r with
  | Void => Void
  | Eps => Void
  | Class p => if p c then Eps else Void
  | Cat r1 r2 =>
      Alt (Cat (deriv c r1) r2) (if nullable r1 then deriv c r2 else Void)
  | Alt r1 r2 => Alt (deriv c r1) (deriv c r2)
  | Star r1 => Cat (deriv c r1) (Star r1)
  end.

Fixpoint fullmatch (r : regex) (s : string) : bool :=
  match s with
  | EmptyString => nullable r
  | String c s' => fullmatch (deriv c r) s'
  end.

Definition Plus (r : regex) : regex := Cat r (Star r).
Definition Opt (r : regex) : regex := Alt r Eps.
Definition Digit : regex := Class is_digit.
Definition Dot : regex := Class (Ascii.eqb ".").

(** [^\d+\.\d+(\.\d+)?$], matched against the whole string. *)
Definition MAIN_VERSION_RE : regex :=
  Cat (Plus Digit) (Cat Dot (Cat (Plus Digit) (Opt (Cat Dot (Plus Digit))))).

(** ** Runs of the process *)

(** [n] calls of the resolver one after the other: what each came back
    with, and the process they leave. *)
Fixpoint calls (h : host) (n : nat) (w : world)
  : list (result (option string)) * world :=
  match n with
  | O => ([], w)
  | S n' =>
      let '(r, w1) := get_git_changeset h w in
      let '(rs, w2) := calls h n' w1 in
      (r :: rs, w2)
  end.

(** The processes a program can be in: it starts fresh, and it touches the
    memo table only by calling the resolver. *)
Inductive reachable (h : host) : world -> Prop :=
  | reachable_fresh : reachable h fresh
  | reachable_call w r w' :
      reachable h w -> get_git_changeset h w = (r, w') -> reachable h w'.

(** How often the resolver has been asked: every call is a hit or a miss. *)
Definition queries (w : world) : nat := (hits w + misses w)%nat.

(** [s] is what the resolver makes of the time [dt], which is the time the
    command printed as [z] at one of its runs. *)
Definition changeset_of (h : host) (z : Z) (dt : datetime) (s : string)
  : Prop :=
  (exists n cwd out,
      shell h n GIT_LOG cwd = Completed out
      /\ py_int (int_max_str_digits h) out = Ok z)
  /\ fromtimestamp z = Ok dt
  /\ s = strftime h dt.

(** The command is [git]: what [git log --pretty=format:%ct] writes to its
    standard output is the committer timestamp in the digits the commit
    has it in, or nothing when there is no commit to show. *)
Definition git_prints (h : host) : Prop :=
  forall n cwd out,
    shell h n GIT_LOG cwd = Completed out -> all_digits out = true.

(** ** Hosts to run the module on *)

(** A checkout in [/srv/doxhub] whose [git] prints [out] every time. *)
Definition checkout (out : string) (pads : bool) : host :=
  Host [PInt 1; PInt 0; PInt 0; PStr "alpha"; PInt 0]
       (Some "/srv/doxhub/utils/version.py") id
       (fun _ _ _ => Completed out) 4300 pads.

(** The module run without a source file behind it. *)
Definition no_file : host :=
  Host [PInt 1; PInt 0; PInt 0; PStr "alpha"; PInt 0]
       None id (fun _ _ _ => Completed "1704110400") 4300 true.

(** * Properties *)

(** ** Facts about decimal digits *)

Lemma append_cons (c : ascii) (s t : string) :
  String c s ++ t = String c (s ++ t).
Proof. reflexivity. Qed.

Lemma append_empty_r (s : string) : s ++ "" = s.
Proof.
  induction s as [|c s IH]; [reflexivity|].
  rewrite append_cons, IH. reflexivity.
Qed.

Lemma length_append (s t : string) :
  String.length (s ++ t) = (String.length s + String.length t)%nat.
Proof.
  induction s as [|c s IH]; [reflexivity|].
  rewrite append_cons. simpl. rewrite IH. reflexivity.
Qed.

Lemma append_assoc (s t u : string) : (s ++ t) ++ u = s ++ t ++ u.
Proof.
  induction s as [|c s IH]; [reflexivity|].
  rewrite !append_cons, IH. reflexivity.
Qed.

Lemma all_digits_app s t :
  all_digits (s ++ t) = all_digits s && all_digits t.
Proof.
  induction s as [|c s IH]; simpl; [reflexivity|].
  rewrite IH. apply andb_assoc.
Qed.

Lemma all_digits_uint (d : Decimal.uint) :
  all_digits (NilEmpty.string_of_uint d) = true.
Proof. induction d; simpl; auto. Qed.

Lemma string_of_uint_empty (d : Decimal.uint) :
  NilEmpty.string_of_uint d = "" -> d = Decimal.Nil.
Proof. destruct d; simpl; congruence. Qed.

Lemma is_number_uint (d : Decimal.uint) :
  is_number (NilZero.string_of_uint d) = true.
Proof.
  unfold is_number, NilZero.string_of_uint.
  destruct d; simpl; try reflexivity; apply all_digits_uint.
Qed.

Lemma decimal_number (z : Z) : (0 <= z)%Z -> is_number (decimal z) = true.
Proof.
  intros Hz. unfold decimal. destruct z as [|p|p]; simpl.
  - reflexivity.
  - apply is_number_uint.
  - lia.
Qed.

Lemma is_number_nonempty s : is_number s = true -> s <> "".
Proof.
  unfold is_number. intros H ->. discriminate H.
Qed.

Lemma is_number_digits s : is_number s = true -> all_digits s = true.
Proof. unfold is_number. intros H. apply andb_prop in H. tauto. Qed.

(** ** get_complete_version *)

Lemma py_in_release_kinds (x : pyval) :
  py_in x RELEASE_KINDS = true <-> exists s, x = PStr s /\ kind_literal s.
Proof.
  unfold py_in, RELEASE_KINDS, kind_literal. simpl. split.
  - destruct x as [|b|z|s]; simpl; try discriminate.
    rewrite orb_false_r, !orb_true_iff, !String.eqb_eq.
    intros H. exists s. tauto.
  - intros (s & -> & H). simpl.
    rewrite orb_false_r, !orb_true_iff, !String.eqb_eq. tauto.
Qed.

Lemma get_complete_version_accepts h v :
  length v = 5%nat -> release_kind_ok v ->
  get_complete_version h (Some v) = Ok v.
Proof.
  intros Hlen (s & Hs & Hk). unfold get_complete_version.
  assert (Hin : py_in (PStr s) RELEASE_KINDS = true)
    by (apply py_in_release_kinds; eauto).
  unfold py_index. rewrite Hlen, Hs.
  cbn [mbind result_bind py_assert Nat.eqb]. rewrite Hin. reflexivity.
Qed.

Lemma get_complete_version_rejects h v :
  length v <> 5%nat \/ ~ release_kind_ok v ->
  get_complete_version h (Some v) = Raise AssertionError.
Proof.
  intros H. unfold get_complete_version.
  destruct (Nat.eqb (length v) 5) eqn:Hlen;
    cbn [mbind result_bind py_assert]; [|reflexivity].
  apply Nat.eqb_eq in Hlen.
  destruct H as [H|H]; [contradiction|].
  unfold py_index.
  destruct (v !! 3%nat) as [x|] eqn:Hx; cbn [mbind result_bind].
  - destruct (py_in x RELEASE_KINDS) eqn:Hin;
      cbn [mbind result_bind py_assert]; [|reflexivity].
    exfalso. apply H. apply py_in_release_kinds in Hin as (s & -> & Hs).
    exists s. auto.
  - apply lookup_ge_None in Hx. lia.
Qed.

Lemma to_tuple_ok d : length (to_tuple d) = 5%nat /\ release_kind_ok (to_tuple d).
Proof.
  split; [reflexivity|].
  exists (kind_name (kind d)). split; [reflexivity|].
  unfold kind_literal. destruct (kind d); simpl; tauto.
Qed.

Lemma get_complete_version_to_tuple h d :
  get_complete_version h (Some (to_tuple d)) = Ok (to_tuple d).
Proof. apply get_complete_version_accepts; apply to_tuple_ok. Qed.

Lemma get_complete_version_cases h v :
  (length v = 5%nat /\ release_kind_ok v
   /\ get_complete_version h (Some v) = Ok v)
  \/ ((length v <> 5%nat \/ ~ release_kind_ok v)
      /\ get_complete_version h (Some v) = Raise AssertionError).
Proof.
  destruct (Nat.eq_dec (length v) 5) as [Hlen|Hlen].
  - destruct (v !! 3%nat) as [x|] eqn:Hx.
    + destruct (py_in x RELEASE_KINDS) eqn:Hin.
      * left. assert (Hok : release_kind_ok v).
        { apply py_in_release_kinds in Hin as (s & -> & Hs). exists s. auto. }
        auto using get_complete_version_accepts.
      * right. assert (Hbad : ~ release_kind_ok v).
        { intros (s & Hs & Hk). rewrite Hs in Hx. injection Hx as <-.
          assert (py_in (PStr s) RELEASE_KINDS = true)
            by (apply py_in_release_kinds; eauto).
          congruence. }
        auto using get_complete_version_rejects.
    + apply lookup_ge_None in Hx. lia.
  - right. auto using get_complete_version_rejects.
Qed.

(** C2. A supplied tuple is refused with [AssertionError] exactly when its
    length is not 5 or its element 4 is not one of the four release kinds;
    refusing raises nothing else; and a tuple is accepted exactly when its
    length is 5 and its release kind is valid. *)
Theorem get_complete_version_contract (h : host) (v : list pyval) :
  (get_complete_version h (Some v) = Raise AssertionError
   <-> length v <> 5%nat \/ ~ release_kind_ok v)
  /\ (forall e, get_complete_version h (Some v) = Raise e -> e = AssertionError)
  /\ (length v = 5%nat /\ release_kind_ok v
      <-> get_complete_version h (Some v) = Ok v).
Proof.
  destruct (get_complete_version_cases h v) as [(Hlen & Hok & ->)|(Hbad & ->)].
  - split; [|split].
    + split; [discriminate|]. intros [?|?]; contradiction.
    + discriminate.
    + tauto.
  - split; [|split].
    + tauto.
    + congruence.
    + split; [|discriminate]. intros [? ?]. destruct Hbad; contradiction.
Qed.

(** C9. A valid descriptor that is supplied comes back unchanged; the
    package's [VERSION] is returned when the argument is omitted, and in no
    other case does the function return anything but its argument. *)
Theorem get_complete_version_identity (h : host) (d : VersionDescriptor) :
  get_complete_version h (Some (to_tuple d)) = Ok (to_tuple d)
  /\ get_complete_version h None = Ok (VERSION h)
  /\ (forall v v', get_complete_version h (Some v) = Ok v' -> v' = v).
Proof.
  split; [apply get_complete_version_to_tuple|].
  split; [reflexivity|].
  intros v v' H.
  destruct (get_complete_version_cases h v) as [(_ & _ & E)|(_ & E)];
    rewrite E in H; congruence.
Qed.

(** ** get_main_version *)

Lemma str_N_number (n : N) : is_number (decimal (Z.of_N n)) = true.
Proof. apply decimal_number. lia. Qed.

(** The number of 4301 digits that the default limit of 4300 refuses. *)
Definition ten_to_4300 : N := 10 ^ 4300.

Lemma ten_to_4300_over_limit :
  over_limit 4300 (String.length (decimal (Z.of_N ten_to_4300))) = true.
Proof. vm_compute. reflexivity. Qed.

Lemma over_limit_off digits : over_limit 0 digits = false.
Proof.
  unfold over_limit. change (0 <? 0)%nat with false.
  rewrite andb_false_r. reflexivity.
Qed.

Lemma str_int_N h n :
  str_int (int_max_str_digits h) (Z.of_N n)
  = if fits h n then Ok (decimal (Z.of_N n)) else Raise ValueError.
Proof.
  unfold str_int, fits. rewrite Z.abs_eq by lia.
  destruct (over_limit _ _); reflexivity.
Qed.

(** [str] raises nothing but [ValueError], and nothing without a limit. *)
Lemma py_str_cases limit v :
  (exists s, py_str limit v = Ok s)
  \/ (py_str limit v = Raise ValueError /\ limit <> 0%nat).
Proof.
  destruct v as [ |[|]|z|s]; simpl; eauto.
  unfold str_int. destruct (over_limit limit _) eqn:E; eauto.
  right. split; [reflexivity|]. intros ->.
  rewrite over_limit_off in E. discriminate.
Qed.

(** So does the conversion of one element after the other. *)
Lemma mapM_py_str_cases limit l :
  (exists ss, mapM (py_str limit) l = Ok ss)
  \/ (mapM (py_str limit) l = Raise ValueError /\ limit <> 0%nat).
Proof.
  induction l as [|v l IH]; [left; exists []; reflexivity|].
  cbn [mapM]. destruct (py_str_cases limit v) as [(s & ->)|(-> & Hl)];
    cbn [mbind result_bind]; [|right; auto].
  destruct IH as [(ss & ->)|(-> & Hl)]; cbn [mbind result_bind mret result_ret];
    [left; eauto|right; auto].
Qed.

(** The main version of a valid descriptor: the numbers joined by dots
    when [str] prints them all, and its [ValueError] when it does not. *)
Lemma get_main_version_to_tuple h d :
  get_main_version h (Some (to_tuple d)) =
  if main_fits h d then
    Ok (if N.eqb (micro d) 0
        then decimal (Z.of_N (major d)) ++ "." ++ decimal (Z.of_N (minor d))
        else decimal (Z.of_N (major d)) ++ "." ++ decimal (Z.of_N (minor d))
             ++ "." ++ decimal (Z.of_N (micro d)))
  else Raise ValueError.
Proof.
  unfold get_main_version, main_fits. rewrite get_complete_version_to_tuple.
  destruct d as [ma mi mc k sr].
  cbn [mbind result_bind py_index to_tuple lookup list_lookup
       major minor micro kind serial].
  replace (py_eq (PInt (Z.of_N mc)) (PInt 0)) with (N.eqb mc 0)
    by (destruct mc; reflexivity).
  unfold to_tuple.
  cbn [major minor micro kind serial].
  destruct (N.eqb mc 0);
    cbn [take mapM py_str]; rewrite !str_int_N;
    destruct (fits h ma); cbn [mbind result_bind andb orb];
    try reflexivity;
    destruct (fits h mi); cbn [mbind result_bind andb orb];
    try reflexivity;
    destruct (fits h mc); reflexivity.
Qed.

(** An accepted tuple has a main version, or [str] refuses one of its
    numbers: the elements 0 to 2 are there, so no index is out of range. *)
Lemma get_main_version_cases h arg v :
  get_complete_version h arg = Ok v -> (3 <= length v)%nat ->
  (exists main, get_main_version h arg = Ok main)
  \/ (get_main_version h arg = Raise ValueError
      /\ int_max_str_digits h <> 0%nat).
Proof.
  intros H Hl. unfold get_main_version. rewrite H.
  destruct v as [ |x0 [ |x1 [ |x2 v]]]; simpl in Hl; try lia.
  cbn [mbind result_bind py_index lookup list_lookup].
  destruct (mapM_py_str_cases (int_max_str_digits h)
              (take (if py_eq x2 (PInt 0) then 2 else 3)%nat
                    (x0 :: x1 :: x2 :: v)))
    as [(ss & ->)|(-> & Hn)]; [left; eexists; reflexivity|right; auto].
Qed.

(** C4, as the code has it.  For a valid descriptor whose numbers [str]
    prints, the main version is major and minor joined by a dot when
    micro is 0, and major, minor and micro joined by dots when it is not;
    when one of the numbers it has to print has more digits than the
    limit of the interpreter allows, [str] raises [ValueError] and so does
    [get_main_version].  On every host (1,2,0,release,0) gives 1.2 and
    (1,2,3,release,0) gives 1.2.3. *)
Theorem get_main_version_joins (h : host) (d : VersionDescriptor) :
  get_main_version h (Some (to_tuple d)) =
    (if main_fits h d then
       Ok (String.concat "."
             (map (fun n => decimal (Z.of_N n))
                  (if N.eqb (micro d) 0 then [major d; minor d]
                   else [major d; minor d; micro d])))
     else Raise ValueError)
  /\ get_main_version h
       (Some [PInt 1; PInt 2; PInt 0; PStr "release"; PInt 0]) = Ok "1.2"
  /\ get_main_version h
       (Some [PInt 1; PInt 2; PInt 3; PStr "release"; PInt 0]) = Ok "1.2.3".
Proof.
  split; [|split; reflexivity].
  rewrite get_main_version_to_tuple.
  destruct (main_fits h d); [|reflexivity].
  destruct (N.eqb (micro d) 0); reflexivity.
Qed.

(** C4, as stated, fails: with the default limit of 4300 digits, [str]
    refuses the major version 10 ^ 4300, and the valid descriptor
    (10 ^ 4300, 2, 0, release, 0) has no main version. *)
Lemma get_main_version_joins_counterexample :
  get_main_version (checkout "" true)
    (Some (to_tuple (Descriptor ten_to_4300 2 0 Release 0)))
  = Raise ValueError.
Proof.
  rewrite get_main_version_to_tuple.
  unfold main_fits, fits.
  change (int_max_str_digits (checkout "" true)) with 4300%nat.
  change (major (Descriptor ten_to_4300 2 0 Release 0)) with ten_to_4300.
  rewrite ten_to_4300_over_limit. reflexivity.
Qed.

(** ** Matching by derivatives *)

Lemma fullmatch_Void s : fullmatch Void s = false.
Proof. induction s; simpl; auto. Qed.

Lemma fullmatch_Alt r1 r2 s :
  fullmatch (Alt r1 r2) s = fullmatch r1 s || fullmatch r2 s.
Proof.
  revert r1 r2. induction s as [|c s IH]; intros r1 r2; simpl; [reflexivity|].
  apply IH.
Qed.

Lemma fullmatch_Cat r1 r2 s1 s2 :
  fullmatch r1 s1 = true -> fullmatch r2 s2 = true ->
  fullmatch (Cat r1 r2) (s1 ++ s2) = true.
Proof.
  revert r1. induction s1 as [|c s1 IH]; intros r1 H1 H2; simpl in *.
  - destruct s2 as [|c s2]; simpl in *.
    + rewrite H1, H2. reflexivity.
    + rewrite fullmatch_Alt, H1, H2. apply orb_true_r.
  - rewrite fullmatch_Alt, (IH _ H1 H2). reflexivity.
Qed.

Lemma fullmatch_Eps_iff s : fullmatch Eps s = true <-> s = "".
Proof.
  destruct s; simpl; [tauto|].
  rewrite fullmatch_Void. split; discriminate.
Qed.

Lemma fullmatch_Star_digits s :
  all_digits s = true -> fullmatch (Star Digit) s = true.
Proof.
  induction s as [|c s IH]; simpl; [reflexivity|].
  intros H. apply andb_prop in H as [Hc Hs]. rewrite Hc.
  apply (fullmatch_Cat Eps (Star Digit) "" s); auto.
Qed.

Lemma fullmatch_Plus_number s :
  is_number s = true -> fullmatch (Plus Digit) s = true.
Proof.
  destruct s as [|c s]; [discriminate|].
  intros H. apply is_number_digits in H.
  simpl in H. apply andb_prop in H as [Hc Hs].
  change (String c s) with (String c "" ++ s).
  apply fullmatch_Cat; [|apply fullmatch_Star_digits; exact Hs].
  simpl. rewrite Hc. reflexivity.
Qed.

Lemma fullmatch_dotted r s :
  fullmatch r s = true -> fullmatch (Cat Dot r) ("." ++ s) = true.
Proof. intros H. apply (fullmatch_Cat Dot r "." s); auto. Qed.

(** C7. For every valid descriptor the string that [get_main_version]
    returns matches [^\d+\.\d+(\.\d+)?$]: it is two numbers, or three,
    with a dot between them.  It returns one whenever [str] prints the
    numbers of the descriptor, which it does for all of them when the
    interpreter has no limit on digits. *)
Theorem get_main_version_matches (h : host) (d : VersionDescriptor) :
  (forall main,
     get_main_version h (Some (to_tuple d)) = Ok main ->
     fullmatch MAIN_VERSION_RE main = true
     /\ exists a b,
          is_number a = true /\ is_number b = true
          /\ (main = a ++ "." ++ b
              \/ exists c,
                   is_number c = true /\ main = a ++ "." ++ b ++ "." ++ c))
  /\ (main_fits h d = true ->
      exists main, get_main_version h (Some (to_tuple d)) = Ok main)
  /\ (int_max_str_digits h = 0%nat -> main_fits h d = true).
Proof.
  rewrite get_main_version_to_tuple.
  split; [|split].
  2: { intros ->. eexists. reflexivity. }
  2: { intros E. unfold main_fits, fits. rewrite E, !over_limit_off.
       simpl. apply orb_true_r. }
  intros main Hm. destruct (main_fits h d); [|discriminate].
  injection Hm as <-.
  pose proof (str_N_number (major d)) as Na.
  pose proof (str_N_number (minor d)) as Nb.
  pose proof (str_N_number (micro d)) as Nc.
  pose proof (fullmatch_Plus_number _ Na) as Ha.
  pose proof (fullmatch_Plus_number _ Nb) as Hb.
  pose proof (fullmatch_Plus_number _ Nc) as Hc.
  unfold MAIN_VERSION_RE.
  destruct (N.eqb (micro d) 0).
  - split; [|exists (decimal (Z.of_N (major d))), (decimal (Z.of_N (minor d)));
              auto].
    apply fullmatch_Cat; [exact Ha|]. apply fullmatch_dotted.
    rewrite <- (append_empty_r (decimal (Z.of_N (minor d)))).
    apply fullmatch_Cat; [exact Hb|]. reflexivity.
  - split; [|exists (decimal (Z.of_N (major d))), (decimal (Z.of_N (minor d)));
              split; [exact Na|split; [exact Nb|right]];
              exists (decimal (Z.of_N (micro d))); auto].
    apply fullmatch_Cat; [exact Ha|]. apply fullmatch_dotted.
    apply fullmatch_Cat; [exact Hb|].
    unfold Opt. rewrite fullmatch_Alt.
    rewrite (fullmatch_dotted _ _ Hc). reflexivity.
Qed.

Lemma get_main_version_matches_witness :
  get_main_version (checkout "" true)
    (Some (to_tuple (Descriptor 1 2 3 Release 0))) = Ok "1.2.3"
  /\ fullmatch MAIN_VERSION_RE "1.2.3" = true
  /\ main_fits (checkout "" true) (Descriptor 1 2 3 Release 0) = true.
Proof.
  split; [reflexivity|]. split; [|reflexivity].
  exact (proj1 (proj1 (get_main_version_matches (checkout "" true)
                         (Descriptor 1 2 3 Release 0)) "1.2.3" eq_refl)).
Defined.

(** ** The resolver's body *)

Lemma py_int_raises limit s e : py_int limit s = Raise e -> e = ValueError.
Proof.
  unfold py_int. intros Hz.
  destruct (rev _) as [|c l]; simpl in Hz;
    repeat match type of Hz with
           | context [match ?x with _ => _ end] => destruct x
           end; congruence.
Qed.

(** Every way the body can end, read off its text. *)
Lemma get_git_changeset_body_cases h w :
  (module_file h = None /\ get_git_changeset_body h w = (Ok None, w))
  \/ exists file,
       module_file h = Some file
       /\ let cwd := dirname (dirname (abspath h file)) in
          let w' := World (cache w) (hits w) (misses w)
                          (spawned w ++ [(GIT_LOG, cwd)]) in
          match shell h (length (spawned w)) GIT_LOG cwd with
          | SpawnFailed e => get_git_changeset_body h w = (Raise e, w')
          | Completed out =>
              match py_int (int_max_str_digits h) out with
              | Raise e =>
                  e = ValueError
                  /\ get_git_changeset_body h w = (Ok None, w')
              | Ok z =>
                  match fromtimestamp z with
                  | Ok dt =>
                      get_git_changeset_body h w
                      = (Ok (Some (strftime h dt)), w')
                  | Raise ValueError =>
                      get_git_changeset_body h w = (Ok None, w')
                  | Raise e => get_git_changeset_body h w = (Raise e, w')
                  end
              end
          end.
Proof.
  unfold get_git_changeset_body.
  destruct (module_file h) as [file|]; [right|left; auto].
  exists file. split; [reflexivity|]. cbv zeta.
  unfold mbind, M_bind, subprocess_run.
  destruct (shell h _ _ _) as [out|e]; [|reflexivity].
  destruct (py_int (int_max_str_digits h) out) as [z|e] eqn:Hz.
  - cbn [mbind result_bind].
    destruct (fromtimestamp z) as [dt|[]]; reflexivity.
  - apply py_int_raises in Hz as ->. split; reflexivity.
Qed.

(** The body leaves the memo table and its counters alone, spawns at most
    one command, and spawns none without a source file. *)
Lemma get_git_changeset_body_frame h w r w' :
  get_git_changeset_body h w = (r, w') ->
  cache w' = cache w /\ hits w' = hits w /\ misses w' = misses w
  /\ (length (spawned w') <= S (length (spawned w)))%nat
  /\ (module_file h = None -> r = Ok None /\ w' = w).
Proof.
  intros H.
  destruct (get_git_changeset_body_cases h w) as [[Hf E]|(file & Hf & E)].
  - rewrite E in H. injection H as <- <-. repeat split; auto.
  - cbv zeta in E.
    assert (Hw : w' = World (cache w) (hits w) (misses w)
                   (spawned w ++ [(GIT_LOG, dirname (dirname (abspath h file)))])).
    { destruct (shell h _ _ _) as [out|e].
      - destruct (py_int (int_max_str_digits h) out) as [z|e].
        + destruct (fromtimestamp z) as [dt|[]]; congruence.
        + destruct E as [_ E]. congruence.
      - congruence. }
    subst w'. simpl. rewrite length_app. simpl.
    repeat split; try lia; congruence.
Qed.

(** A string the body returns is the formatted time of a timestamp the
    command printed. *)
Lemma get_git_changeset_body_some h w s w' :
  get_git_changeset_body h w = (Ok (Some s), w') ->
  exists z dt, changeset_of h z dt s.
Proof.
  intros H.
  destruct (get_git_changeset_body_cases h w) as [[Hf E]|(file & Hf & E)].
  - congruence.
  - cbv zeta in E.
    destruct (shell h _ _ _) as [out|e] eqn:Hsh; [|congruence].
    destruct (py_int (int_max_str_digits h) out) as [z|e] eqn:Hz.
    + destruct (fromtimestamp z) as [dt|e] eqn:Hdt.
      * exists z, dt. unfold changeset_of.
        split; [eauto|]. split; [exact Hdt|congruence].
      * destruct e; congruence.
    + destruct E as [_ E]. congruence.
Qed.

(** ** The memo table *)

Lemma get_git_changeset_hit h w r :
  cache w = Some r ->
  get_git_changeset h w
  = (Ok r, World (Some r) (S (hits w)) (misses w) (spawned w)).
Proof. intros H. unfold get_git_changeset. rewrite H. reflexivity. Qed.

(** A call on an empty table runs the body once: it stores what the body
    returns, and stores nothing when the body raises. *)
Lemma get_git_changeset_miss h w :
  cache w = None ->
  exists res w2,
    get_git_changeset_body h (World None (hits w) (S (misses w)) (spawned w))
    = (res, w2)
    /\ cache w2 = None /\ hits w2 = hits w /\ misses w2 = S (misses w)
    /\ (length (spawned w2) <= S (length (spawned w)))%nat
    /\ (module_file h = None -> res = Ok None /\ spawned w2 = spawned w)
    /\ match res with
       | Ok r =>
           get_git_changeset h w
           = (Ok r, World (Some r) (hits w2) (misses w2) (spawned w2))
       | Raise e => get_git_changeset h w = (Raise e, w2)
       end.
Proof.
  intros Hc. unfold get_git_changeset. rewrite Hc.
  destruct (get_git_changeset_body h _) as [res w2] eqn:Hb.
  exists res, w2.
  apply get_git_changeset_body_frame in Hb as (H1 & H2 & H3 & H4 & H5).
  simpl in *.
  split; [reflexivity|]. split; [exact H1|]. split; [exact H2|].
  split; [exact H3|]. split; [exact H4|]. split.
  - intros Hf. destruct (H5 Hf) as [-> ->]. auto.
  - destruct res; reflexivity.
Qed.

Lemma reachable_cache h w :
  reachable h w ->
  forall s, cache w = Some (Some s) -> exists z dt, changeset_of h z dt s.
Proof.
  induction 1 as [|w r w' Hw IH Hcall]; intros s Hs; [discriminate|].
  destruct (cache w) as [r0|] eqn:Hc.
  - rewrite (get_git_changeset_hit h w r0 Hc) in Hcall.
    injection Hcall as <- <-. simpl in Hs. apply IH. congruence.
  - destruct (get_git_changeset_miss h w Hc)
      as (res & w2 & Hb & Hc2 & _ & _ & _ & _ & E).
    destruct res as [r1|e]; rewrite E in Hcall; injection Hcall as <- <-.
    + simpl in Hs. injection Hs as ->.
      eapply get_git_changeset_body_some. exact Hb.
    + congruence.
Qed.

(** A string the resolver returns in a reachable process is the formatted
    time of a timestamp the command printed. *)
Lemma get_git_changeset_some h w s w' :
  reachable h w ->
  get_git_changeset h w = (Ok (Some s), w') ->
  exists z dt, changeset_of h z dt s.
Proof.
  intros Hw Hcall.
  apply (reachable_cache h w' (reachable_call h w _ w' Hw Hcall)).
  destruct (cache w) as [r0|] eqn:Hc.
  - rewrite (get_git_changeset_hit h w r0 Hc) in Hcall.
    injection Hcall as -> <-. reflexivity.
  - destruct (get_git_changeset_miss h w Hc)
      as (res & w2 & _ & _ & _ & _ & _ & _ & E).
    destruct res as [r1|e]; rewrite E in Hcall; [|discriminate].
    injection Hcall as -> <-. reflexivity.
Qed.

(** ** The width of the formatted time *)

Lemma fixed_width_app a b s t :
  fixed_width a s = true -> fixed_width b t = true ->
  fixed_width (a + b) (s ++ t) = true.
Proof.
  unfold fixed_width. intros Hs Ht.
  apply andb_prop in Hs as [Hs1 Hs2]. apply andb_prop in Ht as [Ht1 Ht2].
  apply Nat.eqb_eq in Hs1, Ht1.
  rewrite length_append, all_digits_app, Hs1, Ht1, Hs2, Ht2, Nat.eqb_refl.
  reflexivity.
Qed.

(** A check that holds below [n] one number at a time holds for every
    number below [n]. *)
Lemma forallb_range (P : Z -> bool) (n : Z) :
  forallb P (map Z.of_nat (seq 0 (Z.to_nat n))) = true ->
  forall z, (0 <= z < n)%Z -> P z = true.
Proof.
  intros H z Hz. rewrite forallb_forall in H. apply H.
  apply in_map_iff. exists (Z.to_nat z). split; [lia|].
  apply in_seq. lia.
Qed.

(** [P] holds of the [n] numbers from [z] on. *)
Fixpoint all_from (P : Z -> bool) (n : nat) (z : Z) : bool :=
  match n with
  | O => true
  | S n' => P z && all_from P n' (z + 1)
  end.

Lemma all_from_spec P n z :
  all_from P n z = true ->
  forall x, (z <= x < z + Z.of_nat n)%Z -> P x = true.
Proof.
  revert z. induction n as [|n IH]; intros z H x Hx; [lia|].
  cbn [all_from] in H. apply andb_prop in H as [Hz Hn].
  destruct (Z.eq_dec x z) as [->|Hne]; [exact Hz|].
  apply (IH (z + 1)%Z Hn). lia.
Qed.

Lemma zfill2_width z :
  (0 <= z <= 99)%Z -> fixed_width 2 (zfill 2 (decimal z)) = true.
Proof.
  intros Hz.
  apply (forallb_range (fun z => fixed_width 2 (zfill 2 (decimal z))) 100);
    [vm_compute; reflexivity|lia].
Qed.

Lemma zfill4_width z :
  (0 <= z <= 9999)%Z -> fixed_width 4 (zfill 4 (decimal z)) = true.
Proof.
  intros Hz.
  apply (all_from_spec (fun z => fixed_width 4 (zfill 4 (decimal z)))
           (Z.to_nat 10000) 0);
    [vm_compute; reflexivity|lia].
Qed.

Lemma year_width z :
  (1000 <= z <= 9999)%Z -> fixed_width 4 (decimal z) = true.
Proof.
  intros Hz.
  assert (H : (z <? 1000)%Z || fixed_width 4 (decimal z) = true).
  { apply (all_from_spec
             (fun z => (z <? 1000)%Z || fixed_width 4 (decimal z))
             (Z.to_nat 10000) 0);
      [vm_compute; reflexivity|lia]. }
  apply orb_prop in H as [H|H]; [|exact H].
  apply Z.ltb_lt in H. lia.
Qed.

Lemma days_in_month_le y m : (days_in_month y m <= 31)%Z.
Proof.
  unfold days_in_month.
  repeat match goal with |- context [if ?c then _ else _] => destruct c end;
    lia.
Qed.

(** The constructor's checks bound every field of a time that
    [fromtimestamp] returns. *)
Lemma fromtimestamp_fields z dt :
  fromtimestamp z = Ok dt ->
  (1 <= year dt <= 9999 /\ 1 <= month dt <= 12 /\ 1 <= day dt <= 31
   /\ 0 <= hour dt <= 23 /\ 0 <= minute dt <= 59 /\ 0 <= second dt <= 59)%Z.
Proof.
  unfold fromtimestamp. destruct (_ && _); [|discriminate].
  destruct (gmtime z) as [g|e]; cbn [mbind result_bind]; [|discriminate].
  unfold new_datetime.
  destruct (_ && _) eqn:Hc; [|discriminate].
  intros [= <-]. simpl.
  repeat (apply andb_prop in Hc as [Hc ?]).
  pose proof (days_in_month_le (tm_year g) (tm_mon g)).
  unfold MINYEAR, MAXYEAR in *.
  repeat match goal with
         | H : (_ <=? _)%Z = true |- _ => apply Z.leb_le in H
         end.
  lia.
Qed.

(** Month, day, hour, minute and second take ten digits. *)
Lemma strftime_tail_width z dt :
  fromtimestamp z = Ok dt ->
  fixed_width 10
    (zfill 2 (decimal (month dt)) ++ zfill 2 (decimal (day dt))
     ++ zfill 2 (decimal (hour dt)) ++ zfill 2 (decimal (minute dt))
     ++ zfill 2 (decimal (second dt))) = true.
Proof.
  intros H. apply fromtimestamp_fields in H.
  apply (fixed_width_app 2 8); [apply zfill2_width; lia|].
  apply (fixed_width_app 2 6); [apply zfill2_width; lia|].
  apply (fixed_width_app 2 4); [apply zfill2_width; lia|].
  apply (fixed_width_app 2 2); apply zfill2_width; lia.
Qed.

(** The formatted time is fourteen digits when the year takes four: on a
    platform that pads it, and everywhere from year 1000 on. *)
Lemma strftime_width h z dt :
  fromtimestamp z = Ok dt ->
  strftime_pads_year h = true \/ (1000 <= year dt)%Z ->
  is_timestamp (strftime h dt) = true.
Proof.
  intros H Hy. pose proof (fromtimestamp_fields z dt H) as Hf.
  unfold is_timestamp, strftime.
  apply (fixed_width_app 4 10); [|eapply strftime_tail_width; eauto].
  destruct (strftime_pads_year h).
  - apply zfill4_width. lia.
  - apply year_width. destruct Hy; [discriminate|lia].
Qed.

(** On every platform the formatted time is a non-empty string of digits
    that ends in the ten digits of month, day, hour, minute and second. *)
Lemma strftime_digits h z dt :
  fromtimestamp z = Ok dt ->
  is_number (strftime h dt) = true
  /\ exists y rest,
       strftime h dt = y ++ rest
       /\ is_number y = true /\ fixed_width 10 rest = true.
Proof.
  intros H. pose proof (fromtimestamp_fields z dt H) as Hf.
  pose proof (strftime_tail_width z dt H) as Ht.
  assert (Hy : is_number
                 (if strftime_pads_year h then zfill 4 (decimal (year dt))
                  else decimal (year dt)) = true).
  { destruct (strftime_pads_year h).
    - assert (Hw : fixed_width 4 (zfill 4 (decimal (year dt))) = true)
        by (apply zfill4_width; lia).
      unfold fixed_width in Hw. apply andb_prop in Hw as [Hl Hd].
      unfold is_number. rewrite Hd, andb_true_r.
      destruct (zfill 4 _); [discriminate Hl|reflexivity].
    - apply decimal_number. lia. }
  split.
  - unfold strftime, is_number.
    unfold fixed_width in Ht. apply andb_prop in Ht as [_ Ht].
    rewrite all_digits_app, (is_number_digits _ Hy), Ht, andb_true_r.
    destruct (if strftime_pads_year h then _ else _) eqn:E;
      [discriminate Hy|reflexivity].
  - eexists _, _. split; [reflexivity|]. split; assumption.
Qed.

(** A day on or after 1970-01-01 lies in the year 1970 or later. *)
Lemma civil_from_days_year days :
  (0 <= days)%Z -> (1970 <= fst (fst (civil_from_days days)))%Z.
Proof.
  intros Hd. unfold civil_from_days. cbv zeta. cbn [fst].
  destruct (_ <? 10)%Z eqn:Hmp; [apply Z.ltb_lt in Hmp|apply Z.ltb_ge in Hmp];
    (destruct (_ <=? 2)%Z eqn:Hm; [apply Z.leb_le in Hm|apply Z.leb_gt in Hm]);
    Z.div_mod_to_equations; lia.
Qed.

(** A timestamp that is not negative falls in 1970 or later. *)
Lemma fromtimestamp_year z dt :
  (0 <= z)%Z -> fromtimestamp z = Ok dt -> (1970 <= year dt)%Z.
Proof.
  intros Hz. pose proof (civil_from_days_year (z / 86400)
                           (Z.div_pos z 86400 Hz ltac:(lia))) as Hy.
  unfold fromtimestamp, gmtime.
  destruct (civil_from_days (z / 86400)) as [[y m] d]. cbn [fst] in Hy.
  destruct (_ && _); [|discriminate].
  destruct (_ && _); cbn [mbind result_bind]; [|discriminate].
  unfold new_datetime. destruct (_ && _); [|discriminate].
  intros [= <-]. exact Hy.
Qed.

(** ** get_version *)

(** What the resolver returns in a reachable process is absent or not
    empty, so its truth value tells the two apart. *)
Lemma get_git_changeset_truthy h w r w' :
  reachable h w -> get_git_changeset h w = (Ok r, w') ->
  truthy r = match r with Some _ => true | None => false end.
Proof.
  intros Hw Hcall. destruct r as [s|]; [|reflexivity].
  destruct (get_git_changeset_some h w s w' Hw Hcall)
    as (z & dt & _ & Hdt & ->).
  destruct (strftime_digits h z dt Hdt) as [Hn _].
  unfold truthy. unfold is_number in Hn. apply andb_prop in Hn as [Hn _].
  exact Hn.
Qed.

(** [get_version] on a valid descriptor, before the resolver's answer is
    looked at. *)
Lemma get_version_to_tuple h d w :
  get_version h (Some (to_tuple d)) w =
  match get_main_version h (Some (to_tuple d)) with
  | Raise e => (Raise e, w)
  | Ok main =>
      if is_dev d then
        match get_git_changeset h w with
        | (Ok r, w') =>
            (Ok (main ++ (if truthy r then ".dev" ++ default "" r else "")),
             w')
        | (Raise e, w') => (Raise e, w')
        end
      else
        match kind d with
        | Release => (Ok (main ++ ""), w)
        | k =>
            if fits h (serial d)
            then (Ok (main ++ short_code k ++ decimal (Z.of_N (serial d))), w)
            else (Raise ValueError, w)
        end
  end.
Proof.
  unfold get_version, mbind, M_bind, lift.
  rewrite get_complete_version_to_tuple. cbv beta iota.
  destruct (get_main_version h (Some (to_tuple d))) as [main|e];
    [|reflexivity].
  cbv beta iota. unfold is_dev.
  destruct d as [ma mi mc k sr]. cbn [kind serial].
  unfold to_tuple. cbn [major minor micro kind serial].
  cbn [py_index lookup list_lookup mbind result_bind].
  replace (py_eq (PInt (Z.of_N sr)) (PInt 0)) with (N.eqb sr 0)
    by (destruct sr; reflexivity).
  cbn [py_str]. rewrite str_int_N.
  destruct k; [destruct (N.eqb sr 0)|..];
    cbn -[get_git_changeset decimal String.append fits];
    try (destruct (fits h sr); reflexivity).
  destruct (get_git_changeset h w) as [[r|e] w']; reflexivity.
Qed.

(** The main version of a valid descriptor is there or [ValueError] is
    raised, as [str] prints its numbers or not. *)
Lemma get_main_version_fits h d :
  match get_main_version h (Some (to_tuple d)) with
  | Ok _ => main_fits h d = true
  | Raise e => e = ValueError /\ main_fits h d = false
  end.
Proof.
  rewrite get_main_version_to_tuple. destruct (main_fits h d); auto.
Qed.

(** C1, as the code has it.  For a valid descriptor [get_version] raises
    [ValueError], before anything else happens, when [str] does not print
    a number of the main version.  When it does, one of three cases
    decides: for kind alpha with serial 0 the resolver is asked, and the
    result is the main version with [.dev] and the timestamp when the
    resolver returns one, the main version alone when it returns none, and
    the exception of the resolver when it raises one; otherwise, for a
    kind other than release, it is the main version with the short code of
    the kind and the serial, and [ValueError] when [str] does not print
    the serial; for a release it is the main version. *)
Theorem get_version_suffix (h : host) (d : VersionDescriptor) (w : world) :
  reachable h w ->
  match get_main_version h (Some (to_tuple d)) with
  | Raise e =>
      e = ValueError /\ main_fits h d = false
      /\ get_version h (Some (to_tuple d)) w = (Raise ValueError, w)
  | Ok main =>
      main_fits h d = true
      /\ get_version h (Some (to_tuple d)) w =
         match kind d, serial d with
         | Alpha, 0%N =>
             match get_git_changeset h w with
             | (Ok r, w') => (Ok (main ++ dev_suffix r), w')
             | (Raise e, w') => (Raise e, w')
             end
         | Release, _ => (Ok (main ++ ""), w)
         | k, n =>
             if fits h n
             then (Ok (main ++ short_code k ++ decimal (Z.of_N n)), w)
             else (Raise ValueError, w)
         end
  end.
Proof.
  intros Hw. rewrite get_version_to_tuple.
  pose proof (get_main_version_fits h d) as Hf.
  destruct (get_main_version h (Some (to_tuple d))) as [main|e].
  - split; [exact Hf|]. unfold is_dev.
    destruct (kind d); try reflexivity; try (destruct (serial d); reflexivity).
    destruct (serial d) as [|p]; [|reflexivity]. cbn [N.eqb].
    destruct (get_git_changeset h w) as [[r|e] w'] eqn:Hcall; [|reflexivity].
    rewrite (get_git_changeset_truthy h w r w' Hw Hcall).
    destruct r; reflexivity.
  - destruct Hf as [-> Hf]. auto.
Qed.

(** In the fresh process of a checkout whose last commit was made at
    1704110400, (2,0,0,alpha,0) is version 2.0.dev20240101120000; where
    the command prints nothing it is version 2.0. *)
Lemma get_version_suffix_witness :
  reachable (checkout "1704110400" true) fresh
  /\ fst (get_version (checkout "1704110400" true)
            (Some (to_tuple (Descriptor 2 0 0 Alpha 0))) fresh)
     = Ok "2.0.dev20240101120000"
  /\ reachable (checkout "" true) fresh
  /\ fst (get_version (checkout "" true)
            (Some (to_tuple (Descriptor 2 0 0 Alpha 0))) fresh)
     = Ok "2.0".
Proof.
  split; [apply reachable_fresh|]. split.
  - pose proof (get_version_suffix (checkout "1704110400" true)
                  (Descriptor 2 0 0 Alpha 0) fresh (reachable_fresh _))
      as Hv.
    change (get_main_version (checkout "1704110400" true)
              (Some (to_tuple (Descriptor 2 0 0 Alpha 0))))
      with (@Ok string "2.0") in Hv.
    destruct Hv as [_ ->]. reflexivity.
  - split; [apply reachable_fresh|].
    pose proof (get_version_suffix (checkout "" true)
                  (Descriptor 2 0 0 Alpha 0) fresh (reachable_fresh _))
      as Hv.
    change (get_main_version (checkout "" true)
              (Some (to_tuple (Descriptor 2 0 0 Alpha 0))))
      with (@Ok string "2.0") in Hv.
    destruct Hv as [_ ->]. reflexivity.
Defined.

(** C1, as stated, fails: [get_version] does not return for every valid
    descriptor.  In a checkout whose command prints 99999999999999999999,
    the resolver raises [OverflowError] and (2,0,0,alpha,0) has no
    version; and with the default limit of 4300 digits the descriptors
    (10 ^ 4300, 2, 0, release, 0) and (2, 0, 0, beta, 10 ^ 4300) raise
    [ValueError]. *)
Lemma get_version_suffix_counterexample :
  get_version (checkout "99999999999999999999" true)
    (Some (to_tuple (Descriptor 2 0 0 Alpha 0))) fresh
  = (Raise OverflowError,
     World None 0 1 [(GIT_LOG, "/srv/doxhub")])
  /\ get_version (checkout "" true)
       (Some (to_tuple (Descriptor ten_to_4300 2 0 Release 0))) fresh
     = (Raise ValueError, fresh)
  /\ get_version (checkout "" true)
       (Some (to_tuple (Descriptor 2 0 0 Beta ten_to_4300))) fresh
     = (Raise ValueError, fresh).
Proof.
  split; [vm_compute; reflexivity|]. split.
  - rewrite get_version_to_tuple, get_main_version_to_tuple.
    unfold main_fits, fits.
    change (int_max_str_digits (checkout "" true)) with 4300%nat.
    change (major (Descriptor ten_to_4300 2 0 Release 0)) with ten_to_4300.
    rewrite ten_to_4300_over_limit. reflexivity.
  - rewrite get_version_to_tuple.
    change (get_main_version (checkout "" true)
              (Some (to_tuple (Descriptor 2 0 0 Beta ten_to_4300))))
      with (@Ok string "2.0").
    unfold is_dev, fits. cbn [kind serial].
    change (int_max_str_digits (checkout "" true)) with 4300%nat.
    rewrite ten_to_4300_over_limit. reflexivity.
Qed.

(** Every call of the resolver is counted, as a hit or as a miss. *)
Lemma get_git_changeset_queries h w :
  queries (snd (get_git_changeset h w)) = S (queries w).
Proof.
  unfold queries. destruct (cache w) as [r|] eqn:Hc.
  - rewrite (get_git_changeset_hit h w r Hc). simpl. lia.
  - destruct (get_git_changeset_miss h w Hc)
      as (res & w2 & _ & _ & Hh & Hm & _ & _ & E).
    destruct res; rewrite E; simpl; lia.
Qed.

Lemma get_version_completed h arg d w :
  get_complete_version h arg = Ok (to_tuple d) ->
  get_version h arg w = get_version h (Some (to_tuple d)) w.
Proof.
  intros H. unfold get_version, mbind, M_bind, lift.
  rewrite H, get_complete_version_to_tuple. reflexivity.
Qed.

(** C8, as the code has it.  [get_version] asks the resolver exactly when
    the completed descriptor has kind alpha and serial 0 and [str] prints
    the numbers of its main version, and then it asks once and the process
    is left as that one call leaves it; in every other case the process is
    left as it was: nothing is asked, nothing is spawned. *)
Theorem get_version_effects (h : host) (arg : option (list pyval))
    (d : VersionDescriptor) (w : world) :
  get_complete_version h arg = Ok (to_tuple d) ->
  (queries (snd (get_version h arg w)) <> queries w
   <-> kind d = Alpha /\ serial d = 0%N /\ main_fits h d = true)
  /\ (kind d = Alpha /\ serial d = 0%N /\ main_fits h d = true ->
      snd (get_version h arg w) = snd (get_git_changeset h w)
      /\ queries (snd (get_version h arg w)) = S (queries w))
  /\ (~ (kind d = Alpha /\ serial d = 0%N /\ main_fits h d = true) ->
      snd (get_version h arg w) = w).
Proof.
  intros Harg. rewrite (get_version_completed h arg d w Harg).
  rewrite get_version_to_tuple.
  pose proof (get_main_version_fits h d) as Hf.
  assert (Hdev : is_dev d = true <-> kind d = Alpha /\ serial d = 0%N).
  { unfold is_dev. destruct (kind d); rewrite ?N.eqb_eq;
      split; try discriminate; try tauto; intros [? _]; discriminate. }
  destruct (get_main_version h (Some (to_tuple d))) as [main|e].
  - destruct (is_dev d).
    + assert (Hs : snd (match get_git_changeset h w with
                        | (Ok r, w') =>
                            (Ok (main ++ (if truthy r
                                          then ".dev" ++ default "" r
                                          else "")),
                             w')
                        | (Raise e, w') => (Raise e, w')
                        end) = snd (get_git_changeset h w))
        by (destruct (get_git_changeset h w) as [[r|e] w']; reflexivity).
      rewrite Hs, get_git_changeset_queries.
      assert (Hk : kind d = Alpha /\ serial d = 0%N)
        by (apply Hdev; reflexivity).
      split; [|split].
      * split; [intros _; tauto|lia].
      * auto.
      * intros Hn. exfalso. apply Hn. tauto.
    + assert (Hs : snd (match kind d with
                        | Release => (Ok (main ++ ""), w)
                        | k =>
                            if fits h (serial d)
                            then (Ok (main ++ short_code k
                                      ++ decimal (Z.of_N (serial d))), w)
                            else (Raise ValueError, w)
                        end) = w)
        by (destruct (kind d); try reflexivity;
            destruct (fits h (serial d)); reflexivity).
      rewrite Hs. split; [|split].
      * split; [congruence|]. intros (Hk & Hs' & _).
        destruct Hdev as [_ Hdev]. specialize (Hdev (conj Hk Hs')).
        discriminate.
      * intros (Hk & Hs' & _).
        destruct Hdev as [_ Hdev]. specialize (Hdev (conj Hk Hs')).
        discriminate.
      * reflexivity.
  - destruct Hf as [_ Hf]. cbn [snd]. split; [|split].
    + split; [congruence|]. intros (_ & _ & Hm). congruence.
    + intros (_ & _ & Hm). congruence.
    + reflexivity.
Qed.

(** The default descriptor of a checkout is a pre-alpha build, and asking
    for its version asks the resolver once. *)
Lemma get_version_effects_witness :
  get_complete_version (checkout "1704110400" true) None
  = Ok (to_tuple (Descriptor 1 0 0 Alpha 0))
  /\ queries (snd (get_version (checkout "1704110400" true) None fresh))
     = 1%nat.
Proof.
  split; [reflexivity|].
  apply (get_version_effects (checkout "1704110400" true) None
           (Descriptor 1 0 0 Alpha 0) fresh eq_refl).
  repeat split; reflexivity.
Defined.

(** C8, as stated, fails: with the default limit of 4300 digits, the
    descriptor (10 ^ 4300, 0, 0, alpha, 0) is accepted and has kind alpha
    and serial 0, and [get_version] raises [ValueError] for its main
    version before the resolver is asked. *)
Lemma get_version_effects_counterexample :
  get_complete_version (checkout "1704110400" true)
    (Some (to_tuple (Descriptor ten_to_4300 0 0 Alpha 0)))
  = Ok (to_tuple (Descriptor ten_to_4300 0 0 Alpha 0))
  /\ kind (Descriptor ten_to_4300 0 0 Alpha 0) = Alpha
  /\ serial (Descriptor ten_to_4300 0 0 Alpha 0) = 0%N
  /\ get_version (checkout "1704110400" true)
       (Some (to_tuple (Descriptor ten_to_4300 0 0 Alpha 0))) fresh
     = (Raise ValueError, fresh)
  /\ queries fresh = 0%nat.
Proof.
  split; [apply get_complete_version_to_tuple|].
  split; [reflexivity|]. split; [reflexivity|]. split; [|reflexivity].
  rewrite get_version_to_tuple, get_main_version_to_tuple.
  unfold main_fits, fits.
  change (int_max_str_digits (checkout "1704110400" true)) with 4300%nat.
  change (major (Descriptor ten_to_4300 0 0 Alpha 0)) with ten_to_4300.
  rewrite ten_to_4300_over_limit. reflexivity.
Qed.

(** ** The short-code mapping *)

Lemma mapping_keys (s : string) :
  kind_literal s -> s <> "release" ->
  exists code, mapping !! s = Some code /\ mapping_getitem (PStr s) = Ok code.
Proof.
  intros [-> | [-> | [-> | ->]]] Hr; try congruence; eexists; split; reflexivity.
Qed.

(** C10. When the release kind of the completed descriptor is one of the
    four literals, the lookup of the short code in the branch for kinds
    other than release is defined: the kind is a key of the mapping, and
    the lookup raises nothing.  What [get_version] raises on an accepted
    tuple is the [ValueError] of [str] for a number it does not print,
    which leaves the process as it was, or what the resolver raised in the
    pre-alpha branch. *)
Theorem mapping_lookup_defined (h : host) (v : list pyval) (s : string)
    (w : world) :
  length v = 5%nat -> v !! 3%nat = Some (PStr s) -> kind_literal s ->
  (s <> "release" ->
   exists code,
     mapping !! s = Some code /\ mapping_getitem (PStr s) = Ok code)
  /\ (forall e w',
        get_version h (Some v) w = (Raise e, w') ->
        (e = ValueError /\ w' = w)
        \/ (s = "alpha" /\ get_git_changeset h w = (Raise e, w'))).
Proof.
  intros Hlen Hs Hk. split; [apply mapping_keys; exact Hk|].
  intros e w'.
  assert (Hgc : get_complete_version h (Some v) = Ok v).
  { apply get_complete_version_accepts; [exact Hlen|]. exists s. auto. }
  unfold get_version, mbind, M_bind, lift. rewrite Hgc. cbv beta iota.
  destruct (get_main_version_cases h (Some v) v Hgc ltac:(lia))
    as [(main & ->)|(-> & _)]; cbv beta iota;
    [|intros [= <- <-]; left; auto].
  destruct v as [ |x0 [ |x1 [ |x2 [ |x3 [ |x4 [ | ]]]]]]; try discriminate Hlen.
  injection Hs as ->.
  cbn [mbind result_bind py_index lookup list_lookup].
  cbv beta iota zeta.
  destruct Hk as [-> | [-> | [-> | ->]]];
    cbn -[get_git_changeset py_str String.append];
    try discriminate.
  - destruct (py_eq x4 (PInt 0));
      cbn -[get_git_changeset py_str String.append].
    + destruct (get_git_changeset h w) as [[r|e0] w0]; [discriminate|].
      intros [= -> ->]. right. auto.
    + destruct (py_str_cases (int_max_str_digits h) x4) as [(t & ->)|(-> & _)];
        [discriminate|]. intros [= <- <-]. left. auto.
  - destruct (py_str_cases (int_max_str_digits h) x4) as [(t & ->)|(-> & _)];
      [discriminate|]. intros [= <- <-]. left. auto.
  - destruct (py_str_cases (int_max_str_digits h) x4) as [(t & ->)|(-> & _)];
      [discriminate|]. intros [= <- <-]. left. auto.
Qed.

(** The tuple (2,0,0,beta,3) reaches the lookup, and beta is a key. *)
Lemma mapping_lookup_defined_witness :
  "beta" <> "release"
  /\ exists code,
       mapping !! "beta" = Some code
       /\ mapping_getitem (PStr "beta") = Ok code.
Proof.
  split; [discriminate|].
  apply (mapping_lookup_defined no_file
           [PInt 2; PInt 0; PInt 0; PStr "beta"; PInt 3] "beta" fresh
           eq_refl eq_refl).
  - right. left. reflexivity.
  - discriminate.
Defined.

(** ** Memoization *)

(** Once the table holds a result, every call returns it and runs
    nothing: only the count of hits moves. *)
Lemma calls_cached h n w r :
  cache w = Some r ->
  calls h n w
  = (replicate n (Ok r),
     World (Some r) (n + hits w) (misses w) (spawned w)).
Proof.
  revert w. induction n as [|n IH]; intros w Hc.
  - simpl. destruct w; simpl in *. subst. reflexivity.
  - cbn [calls]. rewrite (get_git_changeset_hit h w r Hc).
    rewrite (IH (World (Some r) (S (hits w)) (misses w) (spawned w)) eq_refl).
    simpl. do 2 f_equal. lia.
Qed.

(** From an empty table, the calls that raise come first, each after one
    run of the body; the first call that returns stores its result, and
    the calls after it return that result without running the body. *)
Lemma calls_shape h n w :
  cache w = None ->
  exists es m r,
    fst (calls h n w) = (map Raise es ++ replicate m (Ok r))%list
    /\ length es + m = n
    /\ misses (snd (calls h n w)) = (misses w + length es + Nat.min 1 m)%nat
    /\ (length (spawned (snd (calls h n w)))
        <= length (spawned w) + length es + Nat.min 1 m)%nat.
Proof.
  revert w. induction n as [|n IH]; intros w Hc.
  - exists [], 0%nat, None. simpl. repeat split; lia.
  - cbn [calls].
    destruct (get_git_changeset_miss h w Hc)
      as (res & w2 & _ & Hc2 & _ & Hm & Hsp & _ & E).
    destruct res as [r|e]; rewrite E.
    + rewrite (calls_cached h n (World (Some r) (hits w2) (misses w2)
                                 (spawned w2)) r eq_refl).
      exists [], (S n), r. simpl. repeat split; lia.
    + destruct (IH w2 Hc2) as (es & m & r & Hrs & Hn & Hmiss & Hspawn).
      destruct (calls h n w2) as [rs w3]. simpl in *.
      exists (e :: es), m, r. simpl. rewrite Hrs.
      repeat split; lia.
Qed.

(** C3, as the code has it.  Over any number of calls in a process, the
    calls that raise come first and store nothing; from the first call
    that returns (a timestamp or absent) on, every call returns that same
    value; and the body has run once for each call that raised and once
    for the first that returned, each run spawning at most one command.
    So when the first call returns, all calls return its value, the body
    has run once and at most one command was spawned. *)
Theorem get_git_changeset_memoized (h : host) (n : nat) :
  (exists es m r,
      fst (calls h n fresh) = (map Raise es ++ replicate m (Ok r))%list
      /\ (length es + m = n)%nat
      /\ misses (snd (calls h n fresh)) = (length es + Nat.min 1 m)%nat
      /\ (length (spawned (snd (calls h n fresh)))
          <= length es + Nat.min 1 m)%nat)
  /\ (forall r,
        head (fst (calls h n fresh)) = Some (Ok r) ->
        fst (calls h n fresh) = replicate n (Ok r)
        /\ misses (snd (calls h n fresh)) = 1%nat
        /\ (length (spawned (snd (calls h n fresh))) <= 1)%nat).
Proof.
  destruct (calls_shape h n fresh eq_refl) as (es & m & r & H1 & H2 & H3 & H4).
  simpl in H3, H4. split; [exists es, m, r; auto|].
  intros r0 Hhead. rewrite H1 in *.
  destruct es as [|e es]; [|discriminate Hhead].
  simpl in *. subst m.
  destruct n as [|n]; [discriminate Hhead|].
  simpl in Hhead. injection Hhead as ->.
  repeat split; assumption.
Qed.

(** In a checkout whose last commit was made at 1704110400, three calls
    return the same changeset and the command runs once. *)
Lemma get_git_changeset_memoized_witness :
  head (fst (calls (checkout "1704110400" true) 3 fresh))
  = Some (Ok (Some "20240101120000"))
  /\ fst (calls (checkout "1704110400" true) 3 fresh)
     = replicate 3 (Ok (Some "20240101120000"))
  /\ misses (snd (calls (checkout "1704110400" true) 3 fresh)) = 1%nat
  /\ (length (spawned (snd (calls (checkout "1704110400" true) 3 fresh)))
      <= 1)%nat.
Proof.
  split; [reflexivity|].
  apply (proj2 (get_git_changeset_memoized (checkout "1704110400" true) 3)).
  reflexivity.
Defined.

(** C3, as stated, fails: where the command prints a timestamp beyond the
    platform's [time_t], each call raises [OverflowError], nothing is
    stored, and two calls run the body and the command twice. *)
Lemma get_git_changeset_memoized_counterexample :
  fst (calls (checkout "99999999999999999999" true) 2 fresh)
  = [Raise OverflowError; Raise OverflowError]
  /\ misses (snd (calls (checkout "99999999999999999999" true) 2 fresh))
     = 2%nat
  /\ length (spawned (snd (calls (checkout "99999999999999999999" true)
                             2 fresh))) = 2%nat.
Proof. vm_compute. auto. Qed.

(** ** Changeset unavailability *)

Lemma In_drop_while p l c : In c (drop_while p l) -> In c l.
Proof.
  induction l as [|x l IH]; simpl; [tauto|].
  destruct (p x); simpl; auto.
Qed.

(** A string without a decimal digit, the empty one among them, is no
    integer literal. *)
Lemma py_int_no_digit limit s :
  no_digit s = true -> py_int limit s = Raise ValueError.
Proof.
  unfold no_digit, py_int. intros H. rewrite forallb_forall in H.
  set (body := rev (drop_while is_space
                  (rev (drop_while is_space (list_ascii_of_string s))))).
  assert (Hbody : forall c, In c body -> is_digit c = false).
  { intros c Hc. unfold body in Hc.
    apply in_rev, In_drop_while, in_rev, In_drop_while in Hc.
    apply H in Hc. destruct (is_digit c); [discriminate|reflexivity]. }
  clearbody body.
  assert (Hscan : forall l, (forall c, In c l -> is_digit c = false) ->
                            scan_literal l = None).
  { intros [|c l] Hl; [reflexivity|]. simpl.
    rewrite (Hl c) by (left; reflexivity). reflexivity. }
  destruct body as [|c l]; [reflexivity|].
  assert (Hl : forall x, In x l -> is_digit x = false)
    by (intros x Hx; apply Hbody; right; exact Hx).
  destruct (Ascii.eqb c "-"); [rewrite (Hscan l Hl); reflexivity|].
  destruct (Ascii.eqb c "+"); [rewrite (Hscan l Hl); reflexivity|].
  rewrite (Hscan (c :: l) Hbody). reflexivity.
Qed.

(** Without a source file nothing is spawned and nothing but absent is
    ever stored. *)
Lemma reachable_no_file h w :
  module_file h = None -> reachable h w ->
  spawned w = [] /\ (cache w = None \/ cache w = Some None).
Proof.
  intros Hf. induction 1 as [|w r w' Hw [IHs IHc] Hcall].
  - split; [reflexivity|left; reflexivity].
  - destruct (cache w) as [r0|] eqn:Hc.
    + rewrite (get_git_changeset_hit h w r0 Hc) in Hcall.
      injection Hcall as <- <-. simpl. split; [exact IHs|].
      destruct IHc as [?|?]; [discriminate|auto].
    + destruct (get_git_changeset_miss h w Hc)
        as (res & w2 & _ & Hc2 & _ & _ & _ & Hnf & E).
      destruct (Hnf Hf) as [-> Hsp]. rewrite E in Hcall.
      injection Hcall as <- <-. simpl. split; [congruence|auto].
Qed.

(** C5. An unavailable changeset is an absent result, not an error.
    Without a source file every call returns absent and no command is ever
    spawned.  With one, when the output the command printed is no integer
    literal, the call returns absent, and stores it.  An output without a
    decimal digit, the empty output among them, is no integer literal, and
    [int] raises nothing but the [ValueError] that the resolver catches. *)
Theorem changeset_unavailable_is_absent (h : host) :
  (module_file h = None ->
   forall w, reachable h w ->
     exists w', get_git_changeset h w = (Ok None, w') /\ spawned w' = [])
  /\ (forall w file out,
        cache w = None ->
        module_file h = Some file ->
        shell h (length (spawned w)) GIT_LOG
              (dirname (dirname (abspath h file))) = Completed out ->
        (exists e, py_int (int_max_str_digits h) out = Raise e) ->
        exists w',
          get_git_changeset h w = (Ok None, w') /\ cache w' = Some None)
  /\ (forall limit out,
        no_digit out = true -> py_int limit out = Raise ValueError)
  /\ (forall limit out e, py_int limit out = Raise e -> e = ValueError).
Proof.
  split; [|split; [|split]].
  - intros Hf w Hw.
    destruct (reachable_no_file h w Hf Hw) as [Hs [Hc|Hc]].
    + destruct (get_git_changeset_miss h w Hc)
        as (res & w2 & _ & _ & _ & _ & _ & Hnf & E).
      destruct (Hnf Hf) as [-> Hsp]. rewrite E.
      eexists. split; [reflexivity|]. simpl. congruence.
    + rewrite (get_git_changeset_hit h w None Hc).
      eexists. split; [reflexivity|]. exact Hs.
  - intros w file out Hc Hf Hsh [e He].
    unfold get_git_changeset. rewrite Hc.
    destruct (get_git_changeset_body_cases h
                (World None (hits w) (S (misses w)) (spawned w)))
      as [[Hn _]|(file' & Hf' & E)]; [congruence|].
    assert (file' = file) as -> by congruence.
    cbv zeta in E. cbn [spawned] in E. rewrite Hsh, He in E.
    destruct E as [_ E]. rewrite E.
    eexists. split; reflexivity.
  - apply py_int_no_digit.
  - apply py_int_raises.
Qed.

(** Run without a source file, the module returns absent at once; in a
    directory that is no repository the command prints nothing, and the
    resolver returns absent. *)
Lemma changeset_unavailable_is_absent_witness :
  (exists w', get_git_changeset no_file fresh = (Ok None, w')
              /\ spawned w' = [])
  /\ (exists w', get_git_changeset (checkout "" true) fresh = (Ok None, w')
                 /\ cache w' = Some None).
Proof.
  split.
  - apply (proj1 (changeset_unavailable_is_absent no_file) eq_refl fresh).
    apply reachable_fresh.
  - apply (proj1 (proj2 (changeset_unavailable_is_absent (checkout "" true)))
             fresh "/srv/doxhub/utils/version.py" "" eq_refl eq_refl eq_refl).
    exists ValueError. reflexivity.
Defined.

(** ** The examples of the specification *)

(** The versions the specification lists for the kinds that never ask the
    resolver, on every host and in every process, which they leave as it
    was. *)
Theorem get_version_examples (h : host) (w : world) :
  get_version h (Some [PInt 2; PInt 0; PInt 0; PStr "release"; PInt 0]) w
  = (Ok "2.0", w)
  /\ get_version h (Some [PInt 2; PInt 0; PInt 0; PStr "beta"; PInt 3]) w
     = (Ok "2.0b3", w)
  /\ get_version h (Some [PInt 2; PInt 0; PInt 0; PStr "rc"; PInt 1]) w
     = (Ok "2.0rc1", w)
  /\ get_version h (Some [PInt 2; PInt 0; PInt 0; PStr "alpha"; PInt 1]) w
     = (Ok "2.0a1", w).
Proof. repeat split; reflexivity. Qed.

(** Whatever the resolver's body spawns is the one [git log] command, run
    in the parent of the directory that holds the module's file. *)
Theorem get_git_changeset_body_spawns (h : host) (w : world)
    (r : result (option string)) (w' : world) :
  get_git_changeset_body h w = (r, w') ->
  spawned w' = spawned w
  \/ exists file,
       module_file h = Some file
       /\ spawned w'
          = (spawned w
             ++ [("git log --pretty=format:%ct --quiet -1 HEAD",
                  dirname (dirname (abspath h file)))])%list.
Proof.
  intros H.
  destruct (get_git_changeset_body_cases h w) as [[Hf E]|(file & Hf & E)].
  - left. congruence.
  - right. exists file. split; [exact Hf|]. cbv zeta in E.
    destruct (shell h _ _ _) as [out|e].
    + destruct (py_int (int_max_str_digits h) out) as [z|e].
      * destruct (fromtimestamp z) as [dt|[]];
          rewrite E in H; injection H as <- <-; reflexivity.
      * destruct E as [_ E]. rewrite E in H. injection H as <- <-.
        reflexivity.
    + rewrite E in H. injection H as <- <-. reflexivity.
Qed.

(** The module at [/srv/doxhub/utils/version.py] runs the command in
    [/srv/doxhub]. *)
Lemma get_git_changeset_body_spawns_witness :
  spawned (snd (get_git_changeset_body (checkout "" true) fresh)) = []
  \/ exists file,
       module_file (checkout "" true) = Some file
       /\ spawned (snd (get_git_changeset_body (checkout "" true) fresh))
          = ([] ++ [("git log --pretty=format:%ct --quiet -1 HEAD",
                     dirname (dirname (abspath (checkout "" true) file)))])%list.
Proof.
  apply (get_git_changeset_body_spawns (checkout "" true) fresh
           (fst (get_git_changeset_body (checkout "" true) fresh))
           (snd (get_git_changeset_body (checkout "" true) fresh))).
  reflexivity.
Defined.

(** * The rest of the module *)

(** ** Malformed tuples and the default *)

Lemma get_version_rejects h v w :
  length v <> 5%nat \/ ~ release_kind_ok v ->
  get_main_version h (Some v) = Raise AssertionError
  /\ get_version h (Some v) w = (Raise AssertionError, w).
Proof.
  intros Hbad.
  pose proof (get_complete_version_rejects h v Hbad) as E.
  unfold get_version, get_main_version, mbind, M_bind, lift.
  rewrite E. split; reflexivity.
Qed.

(** A supplied tuple that fails a check makes [get_main_version] and
    [get_version] raise [AssertionError]; [get_version] raises it before
    it looks at anything else, so the resolver is not asked and the
    process stays as it was.  A supplied tuple of [None], booleans,
    integers and strings that passes the checks has a main version,
    whatever its elements are, unless [str] refuses an integer of more
    digits than the limit of the interpreter allows and raises
    [ValueError]: no index is out of range, and an interpreter without a
    limit formats every such tuple. *)
Theorem supplied_tuple_checked_first (h : host) (v : list pyval) (w : world) :
  (length v <> 5%nat \/ ~ release_kind_ok v ->
   get_main_version h (Some v) = Raise AssertionError
   /\ get_version h (Some v) w = (Raise AssertionError, w))
  /\ (length v = 5%nat /\ release_kind_ok v ->
      (exists main, get_main_version h (Some v) = Ok main)
      \/ (get_main_version h (Some v) = Raise ValueError
          /\ int_max_str_digits h <> 0%nat)).
Proof.
  split.
  - apply get_version_rejects.
  - intros [Hlen Hok].
    apply (get_main_version_cases h (Some v) v
             (get_complete_version_accepts h v Hlen Hok)).
    lia.
Qed.

(** The tuple (1, 2) is refused before anything runs. *)
Lemma supplied_tuple_checked_first_witness :
  get_main_version (checkout "1704110400" true) (Some [PInt 1; PInt 2])
  = Raise AssertionError
  /\ get_version (checkout "1704110400" true) (Some [PInt 1; PInt 2]) fresh
     = (Raise AssertionError, fresh).
Proof.
  apply (proj1 (supplied_tuple_checked_first (checkout "1704110400" true)
                  [PInt 1; PInt 2] fresh)).
  left. discriminate.
Defined.

(** With the argument omitted, [get_version] puts [doxhub.VERSION] through
    the same two assertions as a supplied tuple, because it hands the
    completed tuple to [get_main_version]; [get_main_version] called with
    the argument omitted checks nothing: it raises [IndexError] on a
    [VERSION] of fewer than three elements, and a longer one of [None],
    booleans, integers and strings it formats, unless [str] refuses an
    integer of more digits than the limit of the interpreter allows and
    raises [ValueError]. *)
Theorem default_version_checks (h : host) (w : world) :
  get_version h None w = get_version h (Some (VERSION h)) w
  /\ ((length (VERSION h) <> 5%nat \/ ~ release_kind_ok (VERSION h)) ->
      get_version h None w = (Raise AssertionError, w))
  /\ ((length (VERSION h) < 3)%nat ->
      get_main_version h None = Raise IndexError)
  /\ ((3 <= length (VERSION h))%nat ->
      (exists main, get_main_version h None = Ok main)
      \/ (get_main_version h None = Raise ValueError
          /\ int_max_str_digits h <> 0%nat)).
Proof.
  assert (E : get_version h None w = get_version h (Some (VERSION h)) w).
  { unfold get_version, mbind, M_bind, lift.
    change (get_complete_version h None) with (Ok (VERSION h)).
    destruct (get_complete_version_cases h (VERSION h))
      as [(_ & _ & ->)|(_ & Hr)]; [reflexivity|].
    unfold get_main_version. rewrite Hr. reflexivity. }
  split; [exact E|]. split; [|split].
  - intros Hbad. rewrite E.
    apply (get_version_rejects h (VERSION h) w Hbad).
  - intros Hlen. unfold get_main_version.
    change (get_complete_version h None) with (Ok (VERSION h)).
    destruct (VERSION h) as [ |x0 [ |x1 [ |x2 l]]]; simpl in Hlen;
      try reflexivity; lia.
  - apply (get_main_version_cases h None (VERSION h) eq_refl).
Qed.

(** A package whose [VERSION] is (1, 2): the main version cannot be
    formatted, and the full version is refused by the assertion. *)
Lemma default_version_checks_witness :
  get_version
    (Host [PInt 1; PInt 2] None id (fun _ _ _ => Completed "") 4300 true)
    None fresh = (Raise AssertionError, fresh)
  /\ get_main_version
       (Host [PInt 1; PInt 2] None id (fun _ _ _ => Completed "") 4300 true)
       None
     = Raise IndexError.
Proof.
  split.
  - apply (proj1 (proj2 (default_version_checks
               (Host [PInt 1; PInt 2] None id (fun _ _ _ => Completed "")
                     4300 true)
               fresh))).
    left. discriminate.
  - apply (proj1 (proj2 (proj2 (default_version_checks
               (Host [PInt 1; PInt 2] None id (fun _ _ _ => Completed "")
                     4300 true)
               fresh)))).
    simpl. lia.
Defined.

(** ** The counters of the memo table *)

(** With a source file behind the module, a run of the body spawns the
    command, once, in the directory two levels above the file. *)
Lemma get_git_changeset_body_spawned h w file r w' :
  module_file h = Some file ->
  get_git_changeset_body h w = (r, w') ->
  spawned w'
  = (spawned w ++ [(GIT_LOG, dirname (dirname (abspath h file)))])%list.
Proof.
  intros Hf H.
  destruct (get_git_changeset_body_cases h w) as [[Hn _]|(file' & Hf' & E)];
    [congruence|].
  assert (file' = file) as -> by congruence.
  cbv zeta in E.
  destruct (shell h _ _ _) as [out|e].
  - destruct (py_int (int_max_str_digits h) out) as [z|e].
    + destruct (fromtimestamp z) as [dt|[]];
        rewrite E in H; injection H as <- <-; reflexivity.
    + destruct E as [_ E]. rewrite E in H. injection H as <- <-.
      reflexivity.
  - rewrite E in H. injection H as <- <-. reflexivity.
Qed.

Lemma get_git_changeset_body_spawns_one h w file r w' :
  module_file h = Some file ->
  get_git_changeset_body h w = (r, w') ->
  length (spawned w') = S (length (spawned w)).
Proof.
  intros Hf H.
  rewrite (get_git_changeset_body_spawned h w file r w' Hf H), length_app.
  simpl. lia.
Qed.

(** What the process keeps through any sequence of calls: no hit is
    counted while the table is empty, a stored result was paid for with a
    miss, and the commands spawned are as many as the misses when the
    module has a source file, and none when it has not. *)
Theorem cache_counters_invariant (h : host) (w : world) :
  reachable h w ->
  (cache w = None -> hits w = 0%nat)
  /\ (cache w <> None -> (1 <= misses w)%nat)
  /\ length (spawned w)
     = match module_file h with
       | Some _ => misses w
       | None => 0%nat
       end.
Proof.
  induction 1 as [|w r w' Hw (IH1 & IH2 & IH3) Hcall].
  - simpl. split; [reflexivity|]. split; [congruence|].
    destruct (module_file h); reflexivity.
  - destruct (cache w) as [r0|] eqn:Hc.
    + rewrite (get_git_changeset_hit h w r0 Hc) in Hcall.
      injection Hcall as <- <-. simpl.
      split; [discriminate|]. split; [|exact IH3].
      intros _. apply IH2. discriminate.
    + unfold get_git_changeset in Hcall. rewrite Hc in Hcall.
      destruct (get_git_changeset_body h _) as [res w2] eqn:Hb.
      pose proof (get_git_changeset_body_frame h _ _ _ Hb)
        as (F1 & F2 & F3 & _ & F5).
      simpl in F1, F2, F3.
      assert (Hsp : length (spawned w2)
                    = match module_file h with
                      | Some _ => misses w2
                      | None => 0%nat
                      end).
      { destruct (module_file h) as [file|] eqn:Hf.
        - rewrite (get_git_changeset_body_spawns_one h _ file _ _ Hf Hb).
          simpl. rewrite IH3, F3. reflexivity.
        - destruct (F5 eq_refl) as [_ ->]. simpl. exact IH3. }
      destruct res as [r1|e]; injection Hcall as <- <-; simpl.
      * split; [discriminate|]. split; [lia|exact Hsp].
      * split; [rewrite F1, F2; intros _; apply IH1; reflexivity|].
        split; [lia|exact Hsp].
Qed.

(** After three calls in a checkout: two hits, one miss, one command. *)
Lemma cache_counters_invariant_witness :
  reachable (checkout "1704110400" true)
    (snd (calls (checkout "1704110400" true) 3 fresh))
  /\ length (spawned (snd (calls (checkout "1704110400" true) 3 fresh)))
     = misses (snd (calls (checkout "1704110400" true) 3 fresh)).
Proof.
  assert (Hr : reachable (checkout "1704110400" true)
                 (snd (calls (checkout "1704110400" true) 3 fresh))).
  { eapply reachable_call; [eapply reachable_call;
      [eapply reachable_call; [apply reachable_fresh|]|]|];
      vm_compute; reflexivity. }
  split; [exact Hr|].
  apply (cache_counters_invariant (checkout "1704110400" true) _ Hr).
Defined.

(** ** The calendar behind the changeset *)

(** The number of days from 1970-01-01 to a date of the proleptic
    Gregorian calendar: the way back from [civil_from_days]. *)
Definition days_from_civil (y m d : Z) : Z :=
  let y' := (if m <=? 2 then y - 1 else y)%Z in
  let era := (y' / 400)%Z in
  let yoe := (y' - era * 400)%Z in
  let mp := (if 2 <? m then m - 3 else m + 9)%Z in
  let doy := ((153 * mp + 2) / 5 + d - 1)%Z in
  let doe := (yoe * 365 + yoe / 4 - yoe / 100 + doy)%Z in
  (era * 146097 + doe - 719468)%Z.

(** The timestamp of a UTC time, as [calendar.timegm] computes it: the way
    back from [fromtimestamp]. *)
Definition timegm (dt : datetime) : Z :=
  (days_from_civil (year dt) (month dt) (day dt) * 86400
   + hour dt * 3600 + minute dt * 60 + second dt)%Z.

(** The date written as one number, year, month and day in that order. *)
Definition date_key (days : Z) : Z :=
  let '(y, m, d) := civil_from_days days in (y * 10000 + m * 100 + d)%Z.

(** Every test of the calendar's formulas taken both ways, and the tests
    turned into the comparisons they decide. *)
Ltac split_tests :=
  repeat match goal with
         | |- context [if ?c then _ else _] =>
             let E := fresh "E" in destruct c eqn:E
         | H : context [if ?c then _ else _] |- _ =>
             let E := fresh "E" in destruct c eqn:E
         end;
  repeat match goal with
         | H : (_ <? _)%Z = true |- _ => apply Z.ltb_lt in H
         | H : (_ <? _)%Z = false |- _ => apply Z.ltb_ge in H
         | H : (_ <=? _)%Z = true |- _ => apply Z.leb_le in H
         | H : (_ <=? _)%Z = false |- _ => apply Z.leb_gt in H
         | H : (_ =? _)%Z = true |- _ => apply Z.eqb_eq in H
         | H : (_ =? _)%Z = false |- _ => apply Z.eqb_neq in H
         | H : (_ && _) = true |- _ => apply andb_prop in H as [? ?]
         | H : (_ || _) = false |- _ => apply orb_false_elim in H as [? ?]
         | H : (_ && _) = false |- _ => apply andb_false_iff in H as [?|?]
         | H : (_ || _) = true |- _ => apply orb_prop in H as [?|?]
         | H : negb _ = true |- _ => apply negb_true_iff in H
         | H : negb _ = false |- _ => apply negb_false_iff in H
         end.

Ltac calendar := split_tests; Z.div_mod_to_equations; lia.

(** Every day has a month from 1 to 12 and a day of the month from 1. *)
Lemma civil_from_days_month_day days y m d :
  civil_from_days days = (y, m, d) -> (1 <= m <= 12 /\ 1 <= d <= 31)%Z.
Proof.
  unfold civil_from_days. cbv zeta. intros [= <- <- <-]. calendar.
Qed.

(** The day of the month is one the month has in that year. *)
Lemma civil_from_days_in_month days y m d :
  civil_from_days days = (y, m, d) -> (d <= days_in_month y m)%Z.
Proof.
  unfold civil_from_days, days_in_month, is_leap. cbv zeta.
  intros [= <- <- <-]. calendar.
Qed.

(** Counting back from the date of a day gives the day. *)
Lemma days_from_civil_from_days days y m d :
  civil_from_days days = (y, m, d) -> days_from_civil y m d = days.
Proof.
  unfold civil_from_days, days_from_civil. cbv zeta.
  intros [= <- <- <-]. calendar.
Qed.

(** Within a year, a later month begins after an earlier one has ended. *)
Lemma days_from_civil_months y m1 d1 m2 d2 :
  (1 <= m2)%Z -> (m2 < m1 <= 12)%Z -> (1 <= d1)%Z ->
  (d2 <= days_in_month y m2)%Z ->
  (days_from_civil y m2 d2 < days_from_civil y m1 d1)%Z.
Proof.
  unfold days_from_civil, days_in_month, is_leap. cbv zeta. intros.
  calendar.
Qed.

(** A later year begins after an earlier one has ended. *)
Lemma days_from_civil_years y1 y2 m1 d1 m2 d2 :
  (y2 < y1)%Z -> (1 <= m1 <= 12)%Z -> (1 <= m2 <= 12)%Z -> (1 <= d1)%Z ->
  (d2 <= days_in_month y2 m2)%Z ->
  (days_from_civil y2 m2 d2 < days_from_civil y1 m1 d1)%Z.
Proof.
  intros Hy Hm1 Hm2 Hd1 Hdim.
  assert (A : (days_from_civil y2 m2 d2 <= days_from_civil y2 12 31)%Z).
  { destruct (Z.eq_dec m2 12%Z) as [->|].
    - unfold days_from_civil, days_in_month in *. cbv zeta. simpl in *. lia.
    - pose proof (days_from_civil_months y2 12 1 m2 d2
                    ltac:(lia) ltac:(lia) ltac:(lia) Hdim).
      unfold days_from_civil in *. cbv zeta in *. simpl in *. lia. }
  assert (B : (days_from_civil y1 1 1 <= days_from_civil y1 m1 d1)%Z).
  { destruct (Z.eq_dec m1 1%Z) as [->|].
    - unfold days_from_civil. cbv zeta. simpl. lia.
    - pose proof (days_from_civil_months y1 m1 d1 1 1
                    ltac:(lia) ltac:(lia) ltac:(lia)).
      assert (1 <= days_in_month y1 1)%Z
        by (unfold days_in_month; simpl; lia).
      lia. }
  assert (C : (days_from_civil y2 12 31 < days_from_civil y1 1 1)%Z).
  { unfold days_from_civil. cbv zeta. simpl. Z.div_mod_to_equations. lia. }
  lia.
Qed.

(** The fields of the date of a day, and the year read off its key. *)
Lemma civil_from_days_fields days y m d :
  civil_from_days days = (y, m, d) ->
  (1 <= m <= 12 /\ 1 <= d <= days_in_month y m
   /\ days_from_civil y m d = days
   /\ date_key days = y * 10000 + m * 100 + d)%Z.
Proof.
  intros E.
  pose proof (civil_from_days_month_day days y m d E).
  pose proof (civil_from_days_in_month days y m d E).
  pose proof (days_from_civil_from_days days y m d E).
  unfold date_key. rewrite E. repeat split; try assumption; lia.
Qed.

(** Later days have later dates. *)
Lemma date_key_lt d1 d2 : (d1 < d2)%Z -> (date_key d1 < date_key d2)%Z.
Proof.
  intros Hlt.
  destruct (civil_from_days d1) as [[y1 m1] e1] eqn:E1.
  destruct (civil_from_days d2) as [[y2 m2] e2] eqn:E2.
  destruct (civil_from_days_fields d1 y1 m1 e1 E1) as (M1 & D1 & R1 & ->).
  destruct (civil_from_days_fields d2 y2 m2 e2 E2) as (M2 & D2 & R2 & ->).
  pose proof (days_in_month_le y1 m1). pose proof (days_in_month_le y2 m2).
  destruct (Z.lt_trichotomy y1 y2) as [Hy|[Hy|Hy]]; [lia| |].
  - subst y2.
    destruct (Z.lt_trichotomy m1 m2) as [Hm|[Hm|Hm]]; [lia| |].
    + subst m2.
      assert (e1 < e2)%Z; [|lia].
      unfold days_from_civil in R1, R2. cbv zeta in R1, R2. lia.
    + pose proof (days_from_civil_months y1 m1 e1 m2 e2
                    ltac:(lia) ltac:(lia) ltac:(lia) ltac:(lia)).
      lia.
  - pose proof (days_from_civil_years y1 y2 m1 e1 m2 e2
                  Hy ltac:(lia) ltac:(lia) ltac:(lia) ltac:(lia)).
    lia.
Qed.

Lemma date_key_mono d1 d2 : (d1 <= d2)%Z -> (date_key d1 <= date_key d2)%Z.
Proof.
  intros H. destruct (Z.eq_dec d1 d2) as [->|]; [lia|].
  pose proof (date_key_lt d1 d2 ltac:(lia)). lia.
Qed.

(** The year of a day, against the days that begin and end the years
    [datetime] accepts and the years a C [int] can hold. *)
Lemma civil_from_days_year_bounds days y m d :
  civil_from_days days = (y, m, d) ->
  ((1 <= y <-> -719162 <= days)
   /\ (y <= 9999 <-> days <= 2932896)
   /\ (-2147481748 <= y <-> -784352321872 <= days)
   /\ (y <= 2147485547 <-> days <= 784352270736))%Z.
Proof.
  intros E.
  destruct (civil_from_days_fields days y m d E) as (Hm & Hd & _ & Hk).
  pose proof (days_in_month_le y m) as Hdim.
  assert (B : forall b, (b <= days -> date_key b <= date_key days)%Z
                        /\ (days < b -> date_key days < date_key b)%Z)
    by (intros b; split; [apply date_key_mono|apply date_key_lt]).
  pose proof (B (-719162)%Z) as [L1 U1].
  pose proof (B 2932897%Z) as [L2 U2].
  pose proof (B (-784352321872)%Z) as [L3 U3].
  pose proof (B 784352270737%Z) as [L4 U4].
  change (date_key (-719162)) with 10101%Z in *.
  change (date_key 2932897) with 100000101%Z in *.
  change (date_key (-784352321872)) with (-21474817479899)%Z in *.
  change (date_key 784352270737) with 21474855480101%Z in *.
  rewrite Hk in *.
  repeat split; intros; lia.
Qed.

(** ** The time of a timestamp *)

(** [fromtimestamp] on every integer: the time of the timestamp from year
    1 to year 9999, [ValueError] for the other years that fit a C [int],
    [OSError] for the years that do not, and [OverflowError] outside the
    64-bit [time_t]. *)
Lemma fromtimestamp_regimes z :
  ((-62135596800 <= z <= 253402300799)%Z ->
   exists dt, fromtimestamp z = Ok dt /\ timegm dt = z)
  /\ ((-67768040609740800 <= z < -62135596800
       \/ 253402300799 < z <= 67768036191676799)%Z ->
      fromtimestamp z = Raise ValueError)
  /\ ((- 2 ^ 63 <= z < -67768040609740800
       \/ 67768036191676799 < z < 2 ^ 63)%Z ->
      fromtimestamp z = Raise OSError)
  /\ ((z < - 2 ^ 63 \/ 2 ^ 63 <= z)%Z ->
      fromtimestamp z = Raise OverflowError).
Proof.
  unfold fromtimestamp, gmtime.
  destruct (civil_from_days (z / 86400)) as [[y m] d] eqn:E. cbv zeta.
  destruct (civil_from_days_fields _ y m d E) as (Hm & Hd & Hinv & _).
  destruct (civil_from_days_year_bounds _ y m d E) as (Y1 & Y2 & Y3 & Y4).
  pose proof (Z.mod_pos_bound z 86400 ltac:(lia)) as Hs.
  pose proof (Z.div_mod z 86400 ltac:(lia)) as Hz.
  set (s := (z mod 86400)%Z) in *. set (q := (z / 86400)%Z) in *.
  assert (Hf : (0 <= s / 3600 <= 23 /\ 0 <= s mod 3600 / 60 <= 59
                /\ 0 <= s mod 60 <= 59
                /\ s / 3600 * 3600 + s mod 3600 / 60 * 60 + s mod 60 = s)%Z).
  { clearbody s. clear - Hs. Z.div_mod_to_equations. lia. }
  destruct Hf as (Hh & Hmi & Hse & Hsum).
  assert (P63 : (2 ^ 63 = 9223372036854775808)%Z) by reflexivity.
  assert (P31 : (2 ^ 31 = 2147483648)%Z) by reflexivity.
  assert (T64 : forall b : bool,
             ((- 2 ^ 63 <=? z) && (z <? 2 ^ 63))%Z = b <->
             if b then (- 2 ^ 63 <= z < 2 ^ 63)%Z
             else (z < - 2 ^ 63 \/ 2 ^ 63 <= z)%Z).
  { intros [|]; rewrite ?andb_true_iff, ?andb_false_iff, ?Z.leb_le,
      ?Z.ltb_lt, ?Z.leb_gt, ?Z.ltb_ge; tauto. }
  assert (T32 : forall b : bool,
             ((- 2 ^ 31 <=? y - 1900) && (y - 1900 <? 2 ^ 31))%Z = b <->
             if b then (-2147481748 <= y <= 2147485547)%Z
             else (y < -2147481748 \/ 2147485547 < y)%Z).
  { rewrite P31.
    intros [|]; rewrite ?andb_true_iff, ?andb_false_iff, ?Z.leb_le,
      ?Z.ltb_lt, ?Z.leb_gt, ?Z.ltb_ge; lia. }
  split; [|split; [|split]].
  - intros Hr.
    rewrite (proj2 (T64 true)) by (rewrite P63; lia). rewrite (proj2 (T32 true)) by lia.
    cbn [mbind result_bind tm_year tm_mon tm_mday tm_hour tm_min tm_sec].
    unfold new_datetime, MINYEAR, MAXYEAR.
    assert (C3 : ((1 <=? y) && (y <=? 9999) && (1 <=? m) && (m <=? 12)
                  && (1 <=? d) && (d <=? days_in_month y m)
                  && (0 <=? s / 3600) && (s / 3600 <=? 23)
                  && (0 <=? s mod 3600 / 60) && (s mod 3600 / 60 <=? 59)
                  && (0 <=? s mod 60) && (s mod 60 <=? 59))%Z = true).
    { repeat (apply andb_true_intro; split); apply Z.leb_le; lia. }
    rewrite C3. eexists. split; [reflexivity|].
    unfold timegm. cbn [year month day hour minute second].
    rewrite Hinv. lia.
  - intros Hr.
    rewrite (proj2 (T64 true)) by (rewrite P63; lia). rewrite (proj2 (T32 true)) by lia.
    cbn [mbind result_bind tm_year].
    unfold new_datetime, MINYEAR, MAXYEAR.
    assert (C3 : ((1 <=? y) && (y <=? 9999))%Z = false).
    { apply andb_false_iff.
      destruct Hr; [left; apply Z.leb_gt|right; apply Z.leb_gt]; lia. }
    rewrite C3. reflexivity.
  - intros Hr.
    rewrite (proj2 (T64 true)) by (rewrite P63; lia). rewrite (proj2 (T32 false)) by lia.
    reflexivity.
  - intros Hr.
    rewrite (proj2 (T64 false)) by tauto. reflexivity.
Qed.

(** ** The changeset as a number *)

(** The number a string of decimal digits writes, after [acc]. *)
Fixpoint digits_acc (acc : Z) (s : string) : Z :=
  match s with
  | EmptyString => acc
  | String c s' => digits_acc (10 * acc + digit_value c) s'
  end.

Definition digits_value (s : string) : Z := digits_acc 0 s.

Lemma digits_acc_app acc a b :
  digits_acc acc (a ++ b) = digits_acc (digits_acc acc a) b.
Proof.
  revert acc. induction a as [|c a IH]; intros acc; [reflexivity|].
  rewrite append_cons. simpl. apply IH.
Qed.

Lemma digits_acc_shift acc s :
  digits_acc acc s
  = (acc * 10 ^ Z.of_nat (String.length s) + digits_value s)%Z.
Proof.
  unfold digits_value. revert acc.
  induction s as [|c s IH]; intros acc; [simpl; lia|].
  cbn [digits_acc String.length].
  rewrite (IH (10 * acc + digit_value c)%Z), (IH (10 * 0 + digit_value c)%Z).
  rewrite Nat2Z.inj_succ, Z.pow_succ_r by lia. lia.
Qed.

Lemma fixed_width_length w s :
  fixed_width w s = true -> String.length s = w.
Proof.
  unfold fixed_width. intros H. apply andb_prop in H as [H _].
  apply Nat.eqb_eq. exact H.
Qed.

(** A two-digit field puts its number behind what was read before it. *)
Lemma digits_acc_field acc x :
  (0 <= x <= 99)%Z ->
  digits_acc acc (zfill 2 (decimal x)) = (acc * 100 + x)%Z.
Proof.
  intros Hx. rewrite digits_acc_shift.
  rewrite (fixed_width_length 2 _ (zfill2_width x Hx)).
  assert (H : (digits_value (zfill 2 (decimal x)) =? x)%Z = true).
  { apply (all_from_spec
             (fun x => (digits_value (zfill 2 (decimal x)) =? x)%Z)
             100 0);
      [vm_compute; reflexivity|lia]. }
  apply Z.eqb_eq in H. rewrite H. reflexivity.
Qed.

(** The year writes itself, padded or not. *)
Lemma digits_value_year x :
  (0 <= x <= 9999)%Z ->
  digits_value (zfill 4 (decimal x)) = x /\ digits_value (decimal x) = x.
Proof.
  intros Hx.
  assert (H : ((digits_value (zfill 4 (decimal x)) =? x)
               && (digits_value (decimal x) =? x))%Z = true).
  { apply (all_from_spec
             (fun x => ((digits_value (zfill 4 (decimal x)) =? x)
                        && (digits_value (decimal x) =? x))%Z)
             (Z.to_nat 10000) 0);
      [vm_compute; reflexivity|lia]. }
  apply andb_prop in H as [H1 H2].
  apply Z.eqb_eq in H1, H2. auto.
Qed.

(** The formatted time read as a number: the fields one after the other,
    two digits each after the year, on every platform. *)
Lemma digits_value_strftime h z dt :
  fromtimestamp z = Ok dt ->
  digits_value (strftime h dt)
  = (((((year dt * 100 + month dt) * 100 + day dt) * 100 + hour dt) * 100
      + minute dt) * 100 + second dt)%Z.
Proof.
  intros H. pose proof (fromtimestamp_fields z dt H) as Hf.
  unfold digits_value, strftime.
  rewrite !digits_acc_app.
  rewrite !digits_acc_field by lia.
  fold (digits_value (if strftime_pads_year h
                      then zfill 4 (decimal (year dt))
                      else decimal (year dt))).
  destruct (digits_value_year (year dt) ltac:(lia)) as [Y1 Y2].
  destruct (strftime_pads_year h); [rewrite Y1|rewrite Y2]; reflexivity.
Qed.

Lemma is_digit_not_space c : is_digit c = true -> is_space c = false.
Proof.
  unfold is_digit, is_space. intros H.
  apply andb_prop in H as [H1 H2].
  apply Nat.leb_le in H1, H2.
  repeat (apply orb_false_intro);
    rewrite ?andb_false_iff, ?Nat.leb_gt, ?Nat.eqb_neq; lia.
Qed.

Lemma scan_digits_number acc seen s :
  all_digits s = true ->
  scan_digits acc seen (list_ascii_of_string s)
  = Some (digits_acc acc s, (seen + String.length s)%nat).
Proof.
  revert acc seen. induction s as [|c s IH]; intros acc seen H.
  - simpl. rewrite Nat.add_0_r. reflexivity.
  - simpl in H. apply andb_prop in H as [Hc Hs].
    simpl. rewrite Hc, (IH _ _ Hs). do 2 f_equal. lia.
Qed.

Lemma drop_while_space_digits l :
  match l with
  | [] => True
  | c :: _ => is_digit c = true
  end ->
  drop_while is_space l = l.
Proof.
  destruct l as [|c l]; [reflexivity|].
  intros Hc. simpl. rewrite (is_digit_not_space c Hc). reflexivity.
Qed.

(** [int] reads a non-empty string of decimal digits as the number it
    writes, unless it has more digits than the limit allows. *)
Lemma py_int_number limit s :
  is_number s = true ->
  py_int limit s
  = if over_limit limit (String.length s) then Raise ValueError
    else Ok (digits_value s).
Proof.
  intros Hn. pose proof (is_number_digits s Hn) as Hd.
  assert (Hall : Forall (fun c => is_digit c = true) (list_ascii_of_string s)).
  { clear Hn. induction s as [|c s IH]; [constructor|].
    simpl in Hd. apply andb_prop in Hd as [Hc Hs].
    constructor; auto. }
  unfold py_int.
  rewrite (drop_while_space_digits (list_ascii_of_string s))
    by (destruct Hall; auto).
  rewrite (drop_while_space_digits (rev (list_ascii_of_string s))).
  2:{ apply Forall_rev in Hall. destruct Hall; auto. }
  rewrite rev_involutive.
  destruct s as [|c s]; [discriminate Hn|].
  simpl in Hd. apply andb_prop in Hd as [Hc Hs].
  cbn [list_ascii_of_string].
  assert (Hm : Ascii.eqb c "-" = false).
  { destruct (Ascii.eqb_spec c "-") as [->|]; [discriminate Hc|reflexivity]. }
  assert (Hp : Ascii.eqb c "+" = false).
  { destruct (Ascii.eqb_spec c "+") as [->|]; [discriminate Hc|reflexivity]. }
  rewrite Hm, Hp. unfold scan_literal. rewrite Hc.
  rewrite (scan_digits_number _ _ s Hs).
  unfold digits_value. reflexivity.
Qed.

(** Up to the threshold of 640 digits no limit applies. *)
Lemma over_limit_small limit digits :
  (digits <= 640)%nat -> over_limit limit digits = false.
Proof.
  intros H. unfold over_limit, MAX_STR_DIGITS_THRESHOLD.
  replace (640 <? digits)%nat with false
    by (symmetry; apply Nat.ltb_ge; exact H).
  reflexivity.
Qed.

Lemma zfill_length w s :
  String.length (zfill w s) = Nat.max w (String.length s).
Proof.
  unfold zfill. rewrite length_append.
  assert (H : forall n,
             String.length (string_of_list_ascii (repeat "0"%char n)) = n)
    by (induction n; simpl; congruence).
  rewrite H. lia.
Qed.

(** The formatted time has fourteen digits at most. *)
Lemma strftime_length h z dt :
  fromtimestamp z = Ok dt -> (String.length (strftime h dt) <= 14)%nat.
Proof.
  intros H. pose proof (fromtimestamp_fields z dt H) as Hf.
  pose proof (strftime_tail_width z dt H) as Ht.
  apply fixed_width_length in Ht.
  pose proof (zfill4_width (year dt) ltac:(lia)) as Hy.
  apply fixed_width_length in Hy. rewrite zfill_length in Hy.
  unfold strftime. rewrite length_append, Ht.
  destruct (strftime_pads_year h); rewrite ?zfill_length; lia.
Qed.

(** [int] reads a changeset as the number it writes, whatever the limit
    on digits. *)
Lemma py_int_strftime limit h z dt :
  fromtimestamp z = Ok dt ->
  py_int limit (strftime h dt) = Ok (digits_value (strftime h dt)).
Proof.
  intros H. destruct (strftime_digits h z dt H) as [Hn _].
  rewrite (py_int_number limit _ Hn).
  rewrite over_limit_small; [reflexivity|].
  pose proof (strftime_length h z dt H). lia.
Qed.

(** The fields of the time [fromtimestamp] returns, in terms of the
    timestamp. *)
Lemma fromtimestamp_ok z dt :
  fromtimestamp z = Ok dt ->
  civil_from_days (z / 86400) = (year dt, month dt, day dt)
  /\ hour dt = (z mod 86400 / 3600)%Z
  /\ minute dt = (z mod 86400 mod 3600 / 60)%Z
  /\ second dt = (z mod 86400 mod 60)%Z.
Proof.
  unfold fromtimestamp, gmtime.
  destruct (civil_from_days (z / 86400)) as [[y m] d]. cbv zeta.
  destruct (_ && _); [|discriminate].
  destruct (_ && _); cbn [mbind result_bind]; [|discriminate].
  unfold new_datetime. destruct (_ && _); [|discriminate].
  intros [= <-]. simpl. auto.
Qed.

(** Of two times, the later one is formatted as the greater number. *)
Lemma strftime_increases h z1 z2 dt1 dt2 :
  fromtimestamp z1 = Ok dt1 -> fromtimestamp z2 = Ok dt2 ->
  (z1 < z2)%Z ->
  (digits_value (strftime h dt1) < digits_value (strftime h dt2))%Z.
Proof.
  intros H1 H2 Hlt.
  rewrite (digits_value_strftime h z1 dt1 H1).
  rewrite (digits_value_strftime h z2 dt2 H2).
  destruct (fromtimestamp_ok z1 dt1 H1) as (E1 & Hh1 & Hm1 & Hs1).
  destruct (fromtimestamp_ok z2 dt2 H2) as (E2 & Hh2 & Hm2 & Hs2).
  destruct (civil_from_days_fields _ _ _ _ E1) as (_ & _ & _ & K1).
  destruct (civil_from_days_fields _ _ _ _ E2) as (_ & _ & _ & K2).
  pose proof (fromtimestamp_fields z1 dt1 H1) as F1.
  pose proof (fromtimestamp_fields z2 dt2 H2) as F2.
  assert (Hq : (z1 / 86400 <= z2 / 86400)%Z)
    by (apply Z.div_le_mono; lia).
  destruct (Z.eq_dec (z1 / 86400)%Z (z2 / 86400)%Z) as [Heq|Hne].
  - rewrite Heq in K1.
    assert (Hk : (year dt1 * 10000 + month dt1 * 100 + day dt1
                  = year dt2 * 10000 + month dt2 * 100 + day dt2)%Z)
      by congruence.
    assert (Hs : (z1 mod 86400 < z2 mod 86400)%Z).
    { pose proof (Z.div_mod z1 86400 ltac:(lia)).
      pose proof (Z.div_mod z2 86400 ltac:(lia)). lia. }
    pose proof (Z.mod_pos_bound z1 86400 ltac:(lia)) as B1.
    pose proof (Z.mod_pos_bound z2 86400 ltac:(lia)) as B2.
    set (s1 := (z1 mod 86400)%Z) in *. set (s2 := (z2 mod 86400)%Z) in *.
    clearbody s1 s2.
    assert (Ht : (hour dt1 * 10000 + minute dt1 * 100 + second dt1
                  < hour dt2 * 10000 + minute dt2 * 100 + second dt2)%Z).
    { rewrite Hh1, Hm1, Hs1, Hh2, Hm2, Hs2.
      clear - Hs B1 B2. Z.div_mod_to_equations. lia. }
    lia.
  - pose proof (date_key_lt (z1 / 86400)%Z (z2 / 86400)%Z ltac:(lia)) as Hk.
    rewrite K1, K2 in Hk. lia.
Qed.

(** Any two changesets the resolver can return on a host compare, read as
    numbers by [int], as the timestamps they were made from: a later
    commit has the greater changeset, on every platform, and two commits
    share a changeset exactly when they were made in the same second. *)
Theorem changeset_orders_commits (h : host) (z1 z2 : Z) (dt1 dt2 : datetime)
    (s1 s2 : string) :
  changeset_of h z1 dt1 s1 -> changeset_of h z2 dt2 s2 ->
  exists n1 n2,
    py_int (int_max_str_digits h) s1 = Ok n1
    /\ py_int (int_max_str_digits h) s2 = Ok n2
    /\ ((z1 < z2)%Z <-> (n1 < n2)%Z)
    /\ (z1 = z2 <-> s1 = s2).
Proof.
  intros (_ & H1 & ->) (_ & H2 & ->).
  destruct (strftime_digits h z1 dt1 H1) as [N1 _].
  destruct (strftime_digits h z2 dt2 H2) as [N2 _].
  exists (digits_value (strftime h dt1)), (digits_value (strftime h dt2)).
  split; [apply (py_int_strftime _ h z1 dt1 H1)|].
  split; [apply (py_int_strftime _ h z2 dt2 H2)|].
  assert (L12 : (z1 < z2)%Z ->
                (digits_value (strftime h dt1)
                 < digits_value (strftime h dt2))%Z)
    by apply (strftime_increases h z1 z2 dt1 dt2 H1 H2).
  assert (L21 : (z2 < z1)%Z ->
                (digits_value (strftime h dt2)
                 < digits_value (strftime h dt1))%Z)
    by apply (strftime_increases h z2 z1 dt2 dt1 H2 H1).
  split; split.
  - exact L12.
  - intros Hn. destruct (Z.lt_trichotomy z1 z2) as [?|[->|Hgt]];
      [assumption| |specialize (L21 Hgt); lia].
    rewrite H1 in H2. injection H2 as <-. lia.
  - intros ->. rewrite H1 in H2. injection H2 as <-. reflexivity.
  - intros Hs. destruct (Z.lt_trichotomy z1 z2) as [Hl|[?|Hg]];
      [specialize (L12 Hl); rewrite Hs in L12; lia|assumption|
       specialize (L21 Hg); rewrite Hs in L21; lia].
Qed.

(** The commits made at 1704110400 and one second later, on a host whose
    command prints the one and then the other. *)
Lemma changeset_orders_commits_witness :
  exists n1 n2,
    py_int 4300 "20240101120000" = Ok n1
    /\ py_int 4300 "20240101120001" = Ok n2
    /\ ((1704110400 < 1704110401)%Z <-> (n1 < n2)%Z)
    /\ (1704110400%Z = 1704110401%Z <-> "20240101120000" = "20240101120001").
Proof.
  apply (changeset_orders_commits
           (Host [] (Some "/srv/doxhub/utils/version.py") id
                 (fun n _ _ => Completed (if Nat.eqb n 0 then "1704110400"
                                          else "1704110401")) 4300 false)
           1704110400 1704110401
           (Datetime 2024 1 1 12 0 0) (Datetime 2024 1 1 12 0 1)).
  - split; [exists 0%nat, "", "1704110400"; split; reflexivity|].
    split; reflexivity.
  - split; [exists 1%nat, "", "1704110401"; split; reflexivity|].
    split; reflexivity.
Defined.

(** ** Version strings tell descriptors apart *)

Lemma decimal_inj z1 z2 : decimal z1 = decimal z2 -> z1 = z2.
Proof.
  unfold decimal. intros H.
  assert (Hn : forall z, Z.to_int z <> Decimal.Pos Decimal.Nil
                         /\ Z.to_int z <> Decimal.Neg Decimal.Nil).
  { intros [|p|p]; simpl; split; try discriminate;
      intros [= E]; exact (DecimalPos.Unsigned.to_uint_nonnil p E). }
  apply DecimalZ.to_int_inj.
  assert (E : Some (Z.to_int z1) = Some (Z.to_int z2)).
  { rewrite <- (NilZero.isi (Z.to_int z1)) by apply Hn.
    rewrite <- (NilZero.isi (Z.to_int z2)) by apply Hn.
    rewrite H. reflexivity. }
  congruence.
Qed.

Lemma str_N_inj n1 n2 :
  decimal (Z.of_N n1) = decimal (Z.of_N n2) -> n1 = n2.
Proof. intros H. apply decimal_inj in H. lia. Qed.

(** Every character of the string passes [p]. *)
Fixpoint all_in (p : ascii -> bool) (s : string) : bool :=
  match s with
  | EmptyString => true
  | String c s' => p c && all_in p s'
  end.

(** The string is empty or begins with a character that fails [p]. *)
Definition stops (p : ascii -> bool) (s : string) : Prop :=
  match s with
  | EmptyString => True
  | String c _ => p c = false
  end.

(** A string splits in one way only into characters that pass [p] and a
    rest that stops them. *)
Lemma split_unique p a a' t t' :
  all_in p a = true -> all_in p a' = true -> stops p t -> stops p t' ->
  a ++ t = a' ++ t' -> a = a' /\ t = t'.
Proof.
  revert a'. induction a as [|c a IH]; intros [|c' a'] Ha Ha' Ht Ht' E.
  - auto.
  - change ("" ++ t) with t in E. rewrite append_cons in E. subst t.
    simpl in Ha', Ht. apply andb_prop in Ha' as [Hc _]. congruence.
  - change ("" ++ t') with t' in E. rewrite append_cons in E. subst t'.
    simpl in Ha, Ht'. apply andb_prop in Ha as [Hc _]. congruence.
  - rewrite !append_cons in E. injection E as -> E.
    simpl in Ha, Ha'. apply andb_prop in Ha as [_ Ha].
    apply andb_prop in Ha' as [_ Ha'].
    destruct (IH a' Ha Ha' Ht Ht' E) as [-> ->]. auto.
Qed.

Lemma all_in_digits s : all_digits s = true -> all_in is_digit s = true.
Proof. induction s as [|c s IH]; simpl; [reflexivity|]. intros H.
  apply andb_prop in H as [-> H]. auto. Qed.

Lemma all_in_app p s t :
  all_in p (s ++ t) = all_in p s && all_in p t.
Proof.
  induction s as [|c s IH]; [reflexivity|].
  rewrite append_cons. simpl. rewrite IH. apply andb_assoc.
Qed.

Lemma all_in_weaken (p q : ascii -> bool) s :
  (forall c, p c = true -> q c = true) ->
  all_in p s = true -> all_in q s = true.
Proof.
  intros Hpq. induction s as [|c s IH]; simpl; [reflexivity|].
  intros H. apply andb_prop in H as [Hc Hs].
  rewrite (Hpq c Hc), (IH Hs). reflexivity.
Qed.

Lemma str_N_digits n : all_in is_digit (decimal (Z.of_N n)) = true.
Proof. apply all_in_digits, is_number_digits, str_N_number. Qed.

(** What follows major and minor in the main version. *)
Definition micro_part (d : VersionDescriptor) : string :=
  if N.eqb (micro d) 0 then "" else "." ++ decimal (Z.of_N (micro d)).

Lemma get_main_version_parts h d :
  get_main_version h (Some (to_tuple d))
  = if main_fits h d
    then Ok (decimal (Z.of_N (major d))
             ++ "." ++ decimal (Z.of_N (minor d)) ++ micro_part d)
    else Raise ValueError.
Proof.
  rewrite get_main_version_to_tuple. unfold micro_part.
  destruct (main_fits h d); [|reflexivity].
  destruct (N.eqb (micro d) 0); [|reflexivity].
  rewrite append_empty_r. reflexivity.
Qed.

(** The version of a build that is not a pre-alpha one, when it has
    one. *)
Lemma get_version_release h d w s :
  is_dev d = false ->
  fst (get_version h (Some (to_tuple d)) w) = Ok s ->
  s = (decimal (Z.of_N (major d))
       ++ "." ++ decimal (Z.of_N (minor d)) ++ micro_part d)
      ++ release_suffix d.
Proof.
  intros Hd. rewrite get_version_to_tuple, get_main_version_parts, Hd.
  destruct (main_fits h d); [|discriminate].
  unfold release_suffix.
  destruct (kind d); try destruct (fits h (serial d));
    cbn [fst]; intros E; try discriminate E;
    injection E as <-; reflexivity.
Qed.

Lemma main_parts_inj d1 d2 :
  decimal (Z.of_N (major d1))
    ++ "." ++ decimal (Z.of_N (minor d1)) ++ micro_part d1
  = decimal (Z.of_N (major d2))
    ++ "." ++ decimal (Z.of_N (minor d2)) ++ micro_part d2 ->
  major d1 = major d2 /\ minor d1 = minor d2 /\ micro d1 = micro d2.
Proof.
  intros E.
  apply (split_unique is_digit) in E as [Ea E];
    [|apply str_N_digits|apply str_N_digits|reflexivity|reflexivity].
  rewrite !append_cons in E. injection E as E.
  change ("" ++ ?x) with x in E.
  assert (Hstop : forall d, stops is_digit (micro_part d)).
  { intros d. unfold micro_part. destruct (N.eqb (micro d) 0); reflexivity. }
  apply (split_unique is_digit) in E as [Eb E];
    [|apply str_N_digits|apply str_N_digits|apply Hstop|apply Hstop].
  split; [apply str_N_inj; exact Ea|]. split; [apply str_N_inj; exact Eb|].
  unfold micro_part in E.
  destruct (N.eqb_spec (micro d1) 0) as [H1|H1],
           (N.eqb_spec (micro d2) 0) as [H2|H2];
    try congruence; try discriminate E.
  rewrite !append_cons in E. injection E as E.
  apply str_N_inj. exact E.
Qed.

Definition digit_or_dot (c : ascii) : bool := is_digit c || Ascii.eqb c ".".

Lemma main_parts_digit_or_dot d :
  all_in digit_or_dot
    (decimal (Z.of_N (major d))
     ++ "." ++ decimal (Z.of_N (minor d)) ++ micro_part d) = true.
Proof.
  assert (W : forall n, all_in digit_or_dot (decimal (Z.of_N n)) = true).
  { intros n. apply (all_in_weaken is_digit); [|apply str_N_digits].
    intros c Hc. unfold digit_or_dot. rewrite Hc. reflexivity. }
  rewrite all_in_app, W. rewrite append_cons. cbn [all_in andb].
  change ("" ++ ?x) with x.
  rewrite all_in_app, W. unfold micro_part.
  destruct (N.eqb (micro d) 0); [reflexivity|].
  rewrite append_cons. cbn [all_in andb]. apply W.
Qed.

Lemma release_suffix_stops d : stops digit_or_dot (release_suffix d).
Proof. unfold release_suffix. destruct (kind d); reflexivity. Qed.

Lemma release_suffix_inj d1 d2 :
  release_suffix d1 = release_suffix d2 ->
  kind d1 = kind d2 /\ (kind d1 <> Release -> serial d1 = serial d2).
Proof.
  unfold release_suffix.
  destruct (kind d1), (kind d2); cbn [short_code];
    rewrite ?append_cons; intros E; try discriminate E;
    (split; [reflexivity|]); intros Hk; try congruence;
    apply str_N_inj; injection E as E; exact E.
Qed.

(** Version strings name their descriptors.  Two valid descriptors that
    are not pre-alpha builds and have the same version string have the
    same major, minor and micro and the same release kind, and the same
    serial unless they are final releases, whose serial is not printed.  A
    pre-alpha build for which the resolver returns absent is the
    exception: it gets the version of the final release. *)
Theorem version_names_descriptor (h : host) (w : world)
    (d1 d2 : VersionDescriptor) :
  (forall s,
     is_dev d1 = false -> is_dev d2 = false ->
     fst (get_version h (Some (to_tuple d1)) w) = Ok s ->
     fst (get_version h (Some (to_tuple d2)) w) = Ok s ->
     major d1 = major d2 /\ minor d1 = minor d2 /\ micro d1 = micro d2
     /\ kind d1 = kind d2
     /\ (kind d1 <> Release -> serial d1 = serial d2))
  /\ (is_dev d1 = true ->
      fst (get_git_changeset h w) = Ok None ->
      fst (get_version h (Some (to_tuple d1)) w)
      = fst (get_version h
               (Some (to_tuple (Descriptor (major d1) (minor d1) (micro d1)
                                           Release (serial d1)))) w)).
Proof.
  split.
  - intros s H1 H2 E1 E2.
    apply (get_version_release h d1 w s H1) in E1.
    apply (get_version_release h d2 w s H2) in E2.
    rewrite E1 in E2.
    apply (split_unique digit_or_dot) in E2 as [Em Es];
      [|apply main_parts_digit_or_dot|apply main_parts_digit_or_dot
       |apply release_suffix_stops|apply release_suffix_stops].
    destruct (main_parts_inj d1 d2 Em) as (? & ? & ?).
    destruct (release_suffix_inj d1 d2 Es) as (? & ?).
    auto.
  - intros H1 Hr.
    rewrite !get_version_to_tuple, !get_main_version_to_tuple, H1.
    unfold main_fits. cbn [is_dev kind major minor micro].
    destruct (_ && _); [|reflexivity].
    destruct (get_git_changeset h w) as [[r|e] w']; cbn [fst] in *;
      [|discriminate Hr].
    injection Hr as ->. reflexivity.
Qed.

(** Versions 1.2b3 and 1.2b3 come from one descriptor; in a directory
    without a repository 1.2 is the version of (1,2,0,alpha,0) and of the
    release. *)
Lemma version_names_descriptor_witness :
  (major (Descriptor 1 2 0 Beta 3) = major (Descriptor 1 2 0 Beta 3)
   /\ minor (Descriptor 1 2 0 Beta 3) = minor (Descriptor 1 2 0 Beta 3)
   /\ micro (Descriptor 1 2 0 Beta 3) = micro (Descriptor 1 2 0 Beta 3)
   /\ kind (Descriptor 1 2 0 Beta 3) = kind (Descriptor 1 2 0 Beta 3)
   /\ (kind (Descriptor 1 2 0 Beta 3) <> Release ->
       serial (Descriptor 1 2 0 Beta 3) = serial (Descriptor 1 2 0 Beta 3)))
  /\ fst (get_version (checkout "" true)
            (Some (to_tuple (Descriptor 1 2 0 Alpha 0))) fresh)
     = fst (get_version (checkout "" true)
              (Some (to_tuple (Descriptor 1 2 0 Release 0))) fresh).
Proof.
  split.
  - apply (proj1 (version_names_descriptor (checkout "" true) fresh
                    (Descriptor 1 2 0 Beta 3) (Descriptor 1 2 0 Beta 3))
             "1.2b3");
      reflexivity.
  - apply (proj2 (version_names_descriptor (checkout "" true) fresh
                    (Descriptor 1 2 0 Alpha 0) (Descriptor 1 2 0 Beta 3)));
      reflexivity.
Defined.

(** ** The constants of the interpreter *)

(** [sys.version_info]: major, minor, micro, release level, serial. *)
Record version_info : Type := VersionInfo {
  vi_major : Z;
  vi_minor : Z;
  vi_micro : Z;
  vi_releaselevel : string;
  vi_serial : Z
}.

(** What the module reads from [sys]. *)
Record interpreter : Type := Interpreter {
  implementation_name : string;
  sys_version_info : version_info
}.

(** [sys.version_info >= (a, b)].  Tuples compare at the first position
    where they differ; the five elements of [version_info] that agree with
    a pair on its two are the longer tuple, hence the greater. *)
Definition version_info_ge (v : version_info) (a b : Z) : bool :=
  if negb (vi_major v =? a)%Z then (a <=? vi_major v)%Z
  else if negb (vi_minor v =? b)%Z then (b <=? vi_minor v)%Z
  else (2 <=? 5)%nat.

Definition PYPY (i : interpreter) : bool :=
  String.eqb (implementation_name i) "pypy".

Definition PY38 (i : interpreter) : bool :=
  version_info_ge (sys_version_info i) 3 8.
Definition PY39 (i : interpreter) : bool :=
  version_info_ge (sys_version_info i) 3 9.
Definition PY310 (i : interpreter) : bool :=
  version_info_ge (sys_version_info i) 3 10.
Definition PY311 (i : interpreter) : bool :=
  version_info_ge (sys_version_info i) 3 11.
Definition PY312 (i : interpreter) : bool :=
  version_info_ge (sys_version_info i) 3 12.
Definition PY313 (i : interpreter) : bool :=
  version_info_ge (sys_version_info i) 3 13.

Lemma version_info_ge_spec v a b :
  version_info_ge v a b = true
  <-> (a < vi_major v \/ (vi_major v = a /\ b <= vi_minor v))%Z.
Proof.
  unfold version_info_ge.
  destruct (Z.eqb_spec (vi_major v) a) as [Ha|Ha]; cbn [negb].
  - destruct (Z.eqb_spec (vi_minor v) b) as [Hb|Hb]; cbn [negb].
    + split; [intros _; right; lia|reflexivity].
    + rewrite Z.leb_le. lia.
  - rewrite Z.leb_le. lia.
Qed.

(** Each constant PY3n says that the interpreter is Python 3.n or later,
    any release of a later major version included, so each of them implies
    the ones for the earlier versions. *)
Theorem version_constants_ordered (i : interpreter) :
  (forall n, version_info_ge (sys_version_info i) 3 n = true
             <-> (3 < vi_major (sys_version_info i)
                  \/ (vi_major (sys_version_info i) = 3
                      /\ n <= vi_minor (sys_version_info i)))%Z)
  /\ (PY313 i = true -> PY312 i = true)
  /\ (PY312 i = true -> PY311 i = true)
  /\ (PY311 i = true -> PY310 i = true)
  /\ (PY310 i = true -> PY39 i = true)
  /\ (PY39 i = true -> PY38 i = true).
Proof.
  split; [intros n; apply version_info_ge_spec|].
  unfold PY313, PY312, PY311, PY310, PY39, PY38.
  rewrite !version_info_ge_spec. repeat split; lia.
Qed.

(** On CPython 3.11.2: 3.11 or later, hence 3.10 or later. *)
Lemma version_constants_ordered_witness :
  PY311 (Interpreter "cpython" (VersionInfo 3 11 2 "final" 0)) = true
  /\ PY310 (Interpreter "cpython" (VersionInfo 3 11 2 "final" 0)) = true.
Proof.
  split; [reflexivity|].
  apply (proj1 (proj2 (proj2 (proj2 (version_constants_ordered
           (Interpreter "cpython" (VersionInfo 3 11 2 "final" 0))))))).
  reflexivity.
Defined.

(** ** Blanks around the command's output *)

Lemma drop_while_all (q : ascii -> bool) a b :
  forallb q a = true -> drop_while q (a ++ b)%list = drop_while q b.
Proof.
  induction a as [|c a IH]; [reflexivity|].
  simpl. intros H. apply andb_prop in H as [-> H]. auto.
Qed.

Lemma drop_while_some (q : ascii -> bool) a b :
  forallb q a = false ->
  drop_while q (a ++ b)%list = (drop_while q a ++ b)%list.
Proof.
  induction a as [|c a IH]; [discriminate|].
  simpl. destruct (q c); [exact IH|reflexivity].
Qed.

Lemma drop_while_all_nil (q : ascii -> bool) a :
  forallb q a = true -> drop_while q a = [].
Proof.
  intros H. rewrite <- (app_nil_r a). rewrite drop_while_all by exact H.
  reflexivity.
Qed.

Lemma forallb_rev_eq (q : ascii -> bool) l :
  forallb q (rev l) = forallb q l.
Proof.
  induction l as [|c l IH]; [reflexivity|].
  simpl. rewrite forallb_app, IH. simpl. rewrite andb_true_r.
  apply andb_comm.
Qed.

(** Blanks before and after are stripped before anything is read. *)
Lemma strip_blanks (q : ascii -> bool) a l b :
  forallb q a = true -> forallb q b = true ->
  rev (drop_while q (rev (drop_while q (a ++ l ++ b)%list)))
  = rev (drop_while q (rev (drop_while q l))).
Proof.
  intros Ha Hb. rewrite drop_while_all by exact Ha.
  destruct (forallb q l) eqn:Hl.
  - rewrite drop_while_all by exact Hl.
    rewrite (drop_while_all_nil q b Hb), (drop_while_all_nil q l Hl).
    reflexivity.
  - rewrite drop_while_some by exact Hl.
    rewrite rev_app_distr.
    rewrite drop_while_all by (rewrite forallb_rev_eq; exact Hb).
    reflexivity.
Qed.

Lemma list_ascii_of_string_app s t :
  list_ascii_of_string (s ++ t)
  = (list_ascii_of_string s ++ list_ascii_of_string t)%list.
Proof.
  induction s as [|c s IH]; [reflexivity|].
  rewrite append_cons. simpl. rewrite IH. reflexivity.
Qed.

Lemma all_in_forallb q s :
  all_in q s = forallb q (list_ascii_of_string s).
Proof. induction s as [|c s IH]; simpl; congruence. Qed.

(** The resolver parses the output of the command as it comes, and [int]
    strips it: blanks and line ends before and after the output change
    neither the integer read nor the refusal to read one. *)
Theorem output_blanks_ignored (limit : nat) (before out after : string) :
  all_in is_space before = true -> all_in is_space after = true ->
  py_int limit (before ++ out ++ after) = py_int limit out.
Proof.
  intros Hb Ha. unfold py_int.
  rewrite !list_ascii_of_string_app.
  rewrite all_in_forallb in Hb, Ha.
  rewrite (strip_blanks is_space _ _ _ Hb Ha). reflexivity.
Qed.

(** A timestamp with the line end a shell command usually adds. *)
Lemma output_blanks_ignored_witness :
  py_int 4300 ("" ++ "1704110400" ++ String "010" "")
  = py_int 4300 "1704110400".
Proof.
  apply (output_blanks_ignored 4300 "" "1704110400" (String "010" ""));
    reflexivity.
Defined.

(** ** The directory the command runs in *)

Lemma drop_while_suffix (q : ascii -> bool) l :
  exists t, l = (t ++ drop_while q l)%list /\ forallb q t = true.
Proof.
  induction l as [|c l (t & E & Ht)]; [exists []; auto|].
  simpl. destruct (q c) eqn:Hc.
  - exists (c :: t). simpl. rewrite Hc, Ht. split; [congruence|reflexivity].
  - exists []. auto.
Qed.

(** Stripping from the right leaves a prefix. *)
Lemma rstrip_prefix (q : ascii -> bool) l :
  exists t, l = (rev (drop_while q (rev l)) ++ t)%list.
Proof.
  destruct (drop_while_suffix q (rev l)) as (t & E & _).
  exists (rev t). rewrite <- rev_app_distr, <- E, rev_involutive.
  reflexivity.
Qed.

(** Stripping from the right keeps the first character when some
    character is kept at all. *)
Lemma rstrip_head (q : ascii -> bool) c l :
  forallb q (c :: l) = false ->
  exists u, rev (drop_while q (rev (c :: l))) = c :: u.
Proof.
  intros H.
  destruct (rstrip_prefix q (c :: l)) as (t & E).
  destruct (drop_while_suffix q (rev (c :: l))) as (t' & E' & Ht').
  destruct (drop_while q (rev (c :: l))) as [|a k].
  - exfalso. rewrite app_nil_r in E'. rewrite <- E', forallb_rev_eq in Ht'.
    congruence.
  - destruct (rev (a :: k)) as [|c' u] eqn:R.
    + apply (f_equal (@length ascii)) in R. rewrite length_rev in R.
      discriminate R.
    + simpl in E. injection E as <- _. eauto.
Qed.

Lemma string_of_list_ascii_app a b :
  string_of_list_ascii (a ++ b)%list
  = string_of_list_ascii a ++ string_of_list_ascii b.
Proof.
  induction a as [|c a IH]; [reflexivity|].
  simpl. rewrite IH, append_cons. reflexivity.
Qed.

(** [dirname] of a path that begins with a separator is a prefix of the
    path and begins with a separator. *)
Lemma dirname_absolute p r :
  p = String "/" r ->
  exists r' t, dirname p = String "/" r' /\ p = dirname p ++ t.
Proof.
  intros ->. unfold dirname.
  set (l := list_ascii_of_string (String "/" r)).
  set (hd := rev (drop_while (fun c => negb (is_sep c)) (rev l))).
  assert (Hl : string_of_list_ascii l = String "/" r)
    by apply string_of_list_ascii_of_string.
  destruct (rstrip_prefix (fun c => negb (is_sep c)) l) as (t1 & E1).
  fold hd in E1.
  assert (Hhd : exists u, hd = "/"%char :: u).
  { unfold hd, l. cbn [list_ascii_of_string].
    apply rstrip_head. reflexivity. }
  destruct Hhd as (u & Hu).
  destruct (forallb is_sep hd) eqn:Hall.
  - exists (string_of_list_ascii u), (string_of_list_ascii t1).
    split; [rewrite Hu; reflexivity|].
    rewrite <- string_of_list_ascii_app, <- E1. symmetry. exact Hl.
  - destruct (rstrip_prefix is_sep hd) as (t2 & E2).
    assert (Hh : exists u', rev (drop_while is_sep (rev hd)) = "/"%char :: u').
    { rewrite Hu in *. apply rstrip_head. exact Hall. }
    destruct Hh as (u' & Hu').
    exists (string_of_list_ascii u'), (string_of_list_ascii (t2 ++ t1)%list).
    split; [rewrite Hu'; reflexivity|].
    rewrite <- string_of_list_ascii_app, app_assoc, <- E2, <- E1.
    symmetry. exact Hl.
Qed.

(** When [os.path.abspath] gives the module's file a path that begins
    with a separator, as it does, every run of the body spawns the command
    in an absolute directory that the path of the file begins with. *)
Theorem repo_dir_is_ancestor (h : host) (w : world) (file r : string)
    (res : result (option string)) (w' : world) :
  module_file h = Some file ->
  abspath h file = String "/" r ->
  get_git_changeset_body h w = (res, w') ->
  exists r' rest,
    spawned w' = (spawned w ++ [(GIT_LOG, String "/" r')])%list
    /\ abspath h file = String "/" r' ++ rest.
Proof.
  intros Hf Ha Hb.
  pose proof (get_git_changeset_body_spawned h w file res w' Hf Hb) as Hs.
  destruct (dirname_absolute (abspath h file) r Ha) as (r1 & t1 & D1 & P1).
  destruct (dirname_absolute (dirname (abspath h file)) r1 D1)
    as (r2 & t2 & D2 & P2).
  exists r2, (t2 ++ t1). split.
  - rewrite Hs, D2. reflexivity.
  - rewrite P1 at 1. rewrite P2 at 1. rewrite D2.
    apply append_assoc.
Qed.

(** The module at [/srv/doxhub/utils/version.py] runs [git] in
    [/srv/doxhub]. *)
Lemma repo_dir_is_ancestor_witness :
  exists r' rest,
    spawned (snd (get_git_changeset_body (checkout "" true) fresh))
    = ([] ++ [(GIT_LOG, String "/" r')])%list
    /\ abspath (checkout "" true) "/srv/doxhub/utils/version.py"
       = String "/" r' ++ rest.
Proof.
  apply (repo_dir_is_ancestor (checkout "" true) fresh
           "/srv/doxhub/utils/version.py" "srv/doxhub/utils/version.py"
           (fst (get_git_changeset_body (checkout "" true) fresh))
           (snd (get_git_changeset_body (checkout "" true) fresh)));
    reflexivity.
Defined.

(** * The format of the changeset

    What the resolver returns, with the calendar and the digits of the
    sections above. *)

Lemma digits_acc_nonneg acc s :
  all_digits s = true -> (0 <= acc)%Z -> (0 <= digits_acc acc s)%Z.
Proof.
  revert acc. induction s as [|c s IH]; intros acc H Hacc; [exact Hacc|].
  simpl in H. apply andb_prop in H as [Hc Hs].
  cbn [digits_acc]. apply (IH _ Hs).
  unfold is_digit in Hc. apply andb_prop in Hc as [Hc _].
  apply Nat.leb_le in Hc. unfold digit_value. lia.
Qed.

(** What [int] reads from digits alone is not negative. *)
Lemma py_int_digits limit out z :
  all_digits out = true -> py_int limit out = Ok z -> (0 <= z)%Z.
Proof.
  intros Hd Hz. destruct out as [|c out].
  - rewrite (py_int_no_digit limit "" eq_refl) in Hz. discriminate Hz.
  - assert (Hn : is_number (String c out) = true)
      by (unfold is_number; rewrite Hd; reflexivity).
    rewrite (py_int_number limit _ Hn) in Hz.
    destruct (over_limit _ _); [discriminate Hz|].
    injection Hz as <-. apply (digits_acc_nonneg 0 _ Hd). lia.
Qed.

Lemma zfill_fixed w s : String.length s = w -> zfill w s = s.
Proof.
  intros H. unfold zfill. rewrite H, Nat.sub_diag. reflexivity.
Qed.

(** C6. Whenever the resolver returns a string, where the command is
    [git] and prints the committer timestamp in digits, the string is
    exactly fourteen decimal digits: the UTC time of the timestamp as
    year, month, day, hour, minute and second in that order, the year in
    four digits and the others padded with zeros to two, with nothing
    between them. *)
Theorem get_git_changeset_format (h : host) (w : world) (s : string)
    (w' : world) :
  git_prints h ->
  reachable h w ->
  get_git_changeset h w = (Ok (Some s), w') ->
  is_timestamp s = true
  /\ exists z dt,
       changeset_of h z dt s
       /\ (0 <= z)%Z /\ timegm dt = z
       /\ s = zfill 4 (decimal (year dt))
              ++ zfill 2 (decimal (month dt)) ++ zfill 2 (decimal (day dt))
              ++ zfill 2 (decimal (hour dt)) ++ zfill 2 (decimal (minute dt))
              ++ zfill 2 (decimal (second dt))
       /\ fixed_width 4 (zfill 4 (decimal (year dt))) = true
       /\ fixed_width 2 (zfill 2 (decimal (month dt))) = true
       /\ fixed_width 2 (zfill 2 (decimal (day dt))) = true
       /\ fixed_width 2 (zfill 2 (decimal (hour dt))) = true
       /\ fixed_width 2 (zfill 2 (decimal (minute dt))) = true
       /\ fixed_width 2 (zfill 2 (decimal (second dt))) = true
       /\ (1970 <= year dt <= 9999 /\ 1 <= month dt <= 12
           /\ 1 <= day dt <= 31 /\ 0 <= hour dt <= 23
           /\ 0 <= minute dt <= 59 /\ 0 <= second dt <= 59)%Z.
Proof.
  intros Hgit Hw Hcall.
  destruct (get_git_changeset_some h w s w' Hw Hcall)
    as (z & dt & Hsh & Hdt & ->).
  assert (Hz : (0 <= z)%Z).
  { destruct Hsh as (n & cwd & out & Hsh & Hout).
    apply (py_int_digits _ out z (Hgit n cwd out Hsh) Hout). }
  pose proof (fromtimestamp_year z dt Hz Hdt) as Hy.
  pose proof (fromtimestamp_fields z dt Hdt) as Hf.
  split; [apply (strftime_width h z dt Hdt); right; lia|].
  exists z, dt. split; [split; auto|]. split; [exact Hz|].
  split; [|split; [|repeat split; try (apply zfill2_width; lia);
                     try (apply zfill4_width; lia); lia]].
  - destruct (fromtimestamp_regimes z) as (R1 & R2 & R3 & R4).
    assert (P63 : (2 ^ 63 = 9223372036854775808)%Z) by reflexivity.
    destruct (Z_le_gt_dec z 253402300799) as [Hle|Hgt].
    + destruct (R1 ltac:(lia)) as (dt' & Hdt' & Ht). congruence.
    + destruct (Z_le_gt_dec z 67768036191676799) as [Hle|Hgt2];
        [rewrite R2 in Hdt by lia; discriminate Hdt|].
      destruct (Z_lt_le_dec z (2 ^ 63)) as [Hlt|Hge];
        [rewrite R3 in Hdt by lia; discriminate Hdt|].
      rewrite R4 in Hdt by lia. discriminate Hdt.
  - unfold strftime. destruct (strftime_pads_year h); [reflexivity|].
    rewrite (zfill_fixed 4 (decimal (year dt)));
      [reflexivity|apply fixed_width_length, year_width; lia].
Qed.

(** The commit made at 1704110400 is changeset 20240101120000, also where
    the C library does not pad the year. *)
Lemma get_git_changeset_format_witness :
  git_prints (checkout "1704110400" false)
  /\ reachable (checkout "1704110400" false) fresh
  /\ fst (get_git_changeset (checkout "1704110400" false) fresh)
     = Ok (Some "20240101120000")
  /\ is_timestamp "20240101120000" = true.
Proof.
  assert (G : git_prints (checkout "1704110400" false))
    by (intros n cwd out [= <-]; reflexivity).
  split; [exact G|]. split; [apply reachable_fresh|].
  split; [reflexivity|].
  apply (get_git_changeset_format (checkout "1704110400" false) fresh
           "20240101120000"
           (snd (get_git_changeset (checkout "1704110400" false) fresh))
           G (reachable_fresh _)).
  reflexivity.
Defined.
